(** * NCrystal core: material description (NCInfo.hh) and lattice utilities
      (NCLatticeUtils.hh)

    A shallow embedding of the [Info] aggregate, of the once-only kernel build of
    [DI_ScatKnlDirect] and of the lattice helpers, with the properties the
    specification states about them.

    Conventions.
    - In [Info] a C++ [double] is an IEEE binary64 value: Rocq's primitive
      [float].  The class only stores and compares doubles, so nothing is
      rounded.
    - In [LatticeUtils] the doubles are idealised as real numbers: the functions
      there do arithmetic (norms, quotients, floor) and the properties are about
      the geometry.
    - A C++ exception is a value of [Error]; a member function that may throw
      returns [Except A].  A mutator of [Info] is a function
      [Info -> Except Info]: every throw in the source happens before the first
      write, so a failed call leaves the object as it was.
    - [unsigned] is [N]; [int] and [short] fields are only stored, as [Z]. *)

From Stdlib Require Import ZArith NArith Bool String List Lia Permutation Sorted.
From Stdlib Require Import Floats.
From Stdlib Require Import Reals Lra.
Import ListNotations.

Set Implicit Arguments.

(** ** Exceptions *)

(** The two exception classes the headers name: [LogicError]
    ([NCRYSTAL_THROW(LogicError,...)], failed assertions) and [BadInput]
    (comment of [checkAndCompleteLattice]).  [BadFunctionCall] is
    [std::bad_function_call], which an empty [std::function] throws when it is
    called.  [UndefinedBehaviour] is no exception: it marks the places where
    the C++ has no defined result (reading an empty [Optional], indexing a
    vector out of range, in a build without assertions), and nothing is
    concluded from it. *)
Inductive Error : Type :=
| LogicError (msg : string)
| BadInput (msg : string)
| BadFunctionCall
| UndefinedBehaviour.

Inductive Except (A : Type) : Type :=
| OK (a : A)
| Throw (e : Error).

Arguments OK {A} a.
Arguments Throw {A} e.

Definition bind {A B : Type} (m : Except A) (k : A -> Except B) : Except B :=
  match m with
  | OK a => k a
  | Throw e => Throw e
  end.

Notation "x <- m ;; k" := (bind m (fun x => k))
  (at level 61, m at next level, right associativity).
Notation "m ;;; k" := (bind m (fun _ => k))
  (at level 61, right associativity).

Definition is_LogicError {A : Type} (m : Except A) : Prop :=
  exists msg, m = Throw (LogicError msg).

Definition is_BadInput {A : Type} (m : Except A) : Prop :=
  exists msg, m = Throw (BadInput msg).

(** ** Stable sorting with a strict comparator

  [std::stable_sort (first, last, comp)]: the elements are put in an order in
  which no element is [comp]-less than one before it, elements that [comp]
  does not separate keeping their relative order.  Insertion from the right
  gives exactly that order. *)
Section StableSort.
Variable A : Type.
Variable comp : A -> A -> bool.

(** [x] goes behind every element that is not greater than it. *)
Fixpoint insert_stable (x : A) (l : list A) : list A :=
  match l with
  | [] => [x]
  | y :: l' => if comp x y then x :: y :: l' else y :: insert_stable x l'
  end.

Definition stable_sort (l : list A) : list A :=
  fold_left (fun acc x => insert_stable x acc) l [].

End StableSort.

(** ** Doubles as they are compared

  [operator<] and [operator==] of two doubles are [PrimFloat.ltb] and
  [PrimFloat.eqb].  On values that are not NaN they are a total order with
  [-0 == +0]; the proof goes through the IEEE specification of the primitive
  operations ([SpecFloat]), ranking a value by class, exponent and
  mantissa. *)
Module Double.

Definition double : Type := float.
Bind Scope float_scope with double.

(** [kInfinity], [std::numeric_limits<double>::infinity()]. *)
Definition kInfinity : double := infinity.

Definition isnan (x : double) : bool := negb (PrimFloat.eqb x x).

Definition cls (f : spec_float) : Z :=
  match f with
  | S754_zero _ => 0
  | S754_infinity s => if s then -2 else 2
  | S754_nan => 3
  | S754_finite s _ _ => if s then -1 else 1
  end.

Definition ex (f : spec_float) : Z :=
  match f with
  | S754_finite s _ e => if s then - e else e
  | _ => 0
  end.

Definition mant (f : spec_float) : Z :=
  match f with
  | S754_finite s m _ => if s then Z.neg m else Z.pos m
  | _ => 0
  end.


Definition eq3 (f g : spec_float) : Prop :=
  (cls f = cls g /\ ex f = ex g /\ mant f = mant g)%Z.

Definition ordered (f : spec_float) : Prop := f <> S754_nan.

End Double.

(** ** NCInfo.hh: the data types *)
Module NCInfo.
Import Double.

(** [unsigned] arithmetic wraps at 2^32. *)
Definition UINT_MOD : N := 4294967296.
Definition to_unsigned (n : nat) : N := (N.of_nat n mod UINT_MOD)%N.

Record StructureInfo : Type := mkStructureInfo {
  spacegroup : N;
  lattice_a : double;
  lattice_b : double;
  lattice_c : double;
  alpha : double;
  beta : double;
  gamma : double;
  volume : double;
  n_atoms : N
}.

(** [StronglyTypedFixedVector<_,double,3>] *)
Definition Vec3 : Type := (double * double * double)%type.

(** [eqv_hkl] is a [unique_ptr<short[]>]: [None] is the null pointer. *)
Record HKLInfo : Type := mkHKLInfo {
  dspacing : double;
  fsquared : double;
  h : Z;
  k : Z;
  l : Z;
  multiplicity : N;
  demi_normals : list Vec3;
  eqv_hkl : option (list Z)
}.

Definition HKLList : Type := list HKLInfo.

Definition AtomIndex : Type := N.
Bind Scope N_scope with AtomIndex.

(** Modelled from the spec: [AtomData] and [AtomDataSP] (NCAtomData.hh is not
    part of the sources at hand).  A shared pointer to an immutable record of
    an element or isotope; of the record only the atomic number is used here,
    and [ad_ptr] is the identity of the pointee. *)
Record AtomDataSP : Type := mkAtomDataSP {
  ad_ptr : N;
  ad_Z : N
}.

Record IndexedAtomData : Type := mkIndexedAtomData {
  atomDataSP : AtomDataSP;
  index : AtomIndex
}.

(** [IndexedAtomData::operator<] and [operator==]: by index only. *)
Definition iad_lt (a o : IndexedAtomData) : bool := (index a <? index o)%N.
Definition iad_eq (a o : IndexedAtomData) : bool := (index a =? index o)%N.

(** [m_dyninfo] is a non-owning [const DynamicInfo*] into the list the same
    [Info] owns: a position in that list, [None] for [nullptr]. *)
Record AtomInfo : Type := mkAtomInfo {
  m_iad : IndexedAtomData;
  m_dt : option double;
  m_msd : option double;
  m_pos : list Vec3;
  m_dyninfo : option nat
}.

Definition msd (a : AtomInfo) : option double := m_msd a.
Definition debyeTemp (a : AtomInfo) : option double := m_dt a.
Definition atom (a : AtomInfo) : IndexedAtomData := m_iad a.
Definition numberPerUnitCell (a : AtomInfo) : N := to_unsigned (length (m_pos a)).

Definition AtomInfoList : Type := list AtomInfo.

(** The concrete classes derived from [DynamicInfo]. *)
Inductive DIKind : Type :=
| DI_Sterile
| DI_FreeGas
| DI_ScatKnlDirect
| DI_VDOS
| DI_VDOSDebye (debyeTemperature : double).

Record DynamicInfo : Type := mkDynamicInfo {
  di_kind : DIKind;
  m_fraction : double;
  m_atom : IndexedAtomData;
  m_temperature : double;
  m_atomInfo : option nat
}.

Definition fraction (d : DynamicInfo) : double := m_fraction d.

(** [void changeFraction(double f) { m_fraction = f; }] *)
Definition changeFraction (f : double) (d : DynamicInfo) : DynamicInfo :=
  mkDynamicInfo (di_kind d) f (m_atom d) (m_temperature d) (m_atomInfo d).

(** [std::vector<std::unique_ptr<DynamicInfo>>]; a null [unique_ptr] is
    [None]. *)
Definition DynamicInfoList : Type := list (option DynamicInfo).

Record CompositionEntry : Type := mkCompositionEntry {
  ce_fraction : double;
  ce_atom : IndexedAtomData
}.
Definition Composition : Type := list CompositionEntry.

Definition CustomLine : Type := list string.
Definition CustomSectionData : Type := list CustomLine.
Definition CustomData : Type := list (string * CustomSectionData).

(** [std::function<CrossSect(NeutronEnergy)>]; the empty function is
    [None]. *)
Definition XSectProvider : Type := option (double -> double).

Record Info : Type := mkInfo {
  m_uid : N;
  m_structinfo : option StructureInfo;
  m_atomlist : AtomInfoList;
  m_hkllist : HKLList;
  m_dyninfolist : DynamicInfoList;
  m_hkl_dlower_and_dupper : option (double * double);
  m_density : option double;
  m_numberdensity : option double;
  m_xsect_free : option double;
  m_xsect_absorption : option double;
  m_temp : option double;
  m_xsectprovider : XSectProvider;
  m_composition : Composition;
  m_custom : CustomData;
  m_lock : bool;
  m_atomDataSPs : list AtomDataSP;
  m_displayLabels : list string
}.

(** [Info() = default], with the member initialisers of the class. *)
Definition Info_default (uid : N) : Info :=
  mkInfo uid None [] [] [] None None None None None None None [] [] false [] [].

(** Assignment to one member. *)
Definition set_m_structinfo (v : option StructureInfo) (i : Info) : Info :=
  mkInfo (m_uid i) v (m_atomlist i) (m_hkllist i) (m_dyninfolist i)
    (m_hkl_dlower_and_dupper i) (m_density i) (m_numberdensity i)
    (m_xsect_free i) (m_xsect_absorption i) (m_temp i) (m_xsectprovider i)
    (m_composition i) (m_custom i) (m_lock i) (m_atomDataSPs i)
    (m_displayLabels i).
Definition set_m_atomlist (v : AtomInfoList) (i : Info) : Info :=
  mkInfo (m_uid i) (m_structinfo i) v (m_hkllist i) (m_dyninfolist i)
    (m_hkl_dlower_and_dupper i) (m_density i) (m_numberdensity i)
    (m_xsect_free i) (m_xsect_absorption i) (m_temp i) (m_xsectprovider i)
    (m_composition i) (m_custom i) (m_lock i) (m_atomDataSPs i)
    (m_displayLabels i).
Definition set_m_hkllist (v : HKLList) (i : Info) : Info :=
  mkInfo (m_uid i) (m_structinfo i) (m_atomlist i) v (m_dyninfolist i)
    (m_hkl_dlower_and_dupper i) (m_density i) (m_numberdensity i)
    (m_xsect_free i) (m_xsect_absorption i) (m_temp i) (m_xsectprovider i)
    (m_composition i) (m_custom i) (m_lock i) (m_atomDataSPs i)
    (m_displayLabels i).
Definition set_m_dyninfolist (v : DynamicInfoList) (i : Info) : Info :=
  mkInfo (m_uid i) (m_structinfo i) (m_atomlist i) (m_hkllist i) v
    (m_hkl_dlower_and_dupper i) (m_density i) (m_numberdensity i)
    (m_xsect_free i) (m_xsect_absorption i) (m_temp i) (m_xsectprovider i)
    (m_composition i) (m_custom i) (m_lock i) (m_atomDataSPs i)
    (m_displayLabels i).
Definition set_m_hkl_dlower_and_dupper (v : option (double * double))
  (i : Info) : Info :=
  mkInfo (m_uid i) (m_structinfo i) (m_atomlist i) (m_hkllist i)
    (m_dyninfolist i) v (m_density i) (m_numberdensity i)
    (m_xsect_free i) (m_xsect_absorption i) (m_temp i) (m_xsectprovider i)
    (m_composition i) (m_custom i) (m_lock i) (m_atomDataSPs i)
    (m_displayLabels i).
Definition set_m_density (v : option double) (i : Info) : Info :=
  mkInfo (m_uid i) (m_structinfo i) (m_atomlist i) (m_hkllist i)
    (m_dyninfolist i) (m_hkl_dlower_and_dupper i) v (m_numberdensity i)
    (m_xsect_free i) (m_xsect_absorption i) (m_temp i) (m_xsectprovider i)
    (m_composition i) (m_custom i) (m_lock i) (m_atomDataSPs i)
    (m_displayLabels i).
Definition set_m_numberdensity (v : option double) (i : Info) : Info :=
  mkInfo (m_uid i) (m_structinfo i) (m_atomlist i) (m_hkllist i)
    (m_dyninfolist i) (m_hkl_dlower_and_dupper i) (m_density i) v
    (m_xsect_free i) (m_xsect_absorption i) (m_temp i) (m_xsectprovider i)
    (m_composition i) (m_custom i) (m_lock i) (m_atomDataSPs i)
    (m_displayLabels i).
Definition set_m_xsect_free (v : option double) (i : Info) : Info :=
  mkInfo (m_uid i) (m_structinfo i) (m_atomlist i) (m_hkllist i)
    (m_dyninfolist i) (m_hkl_dlower_and_dupper i) (m_density i)
    (m_numberdensity i) v (m_xsect_absorption i) (m_temp i)
    (m_xsectprovider i) (m_composition i) (m_custom i) (m_lock i)
    (m_atomDataSPs i) (m_displayLabels i).
Definition set_m_xsect_absorption (v : option double) (i : Info) : Info :=
  mkInfo (m_uid i) (m_structinfo i) (m_atomlist i) (m_hkllist i)
    (m_dyninfolist i) (m_hkl_dlower_and_dupper i) (m_density i)
    (m_numberdensity i) (m_xsect_free i) v (m_temp i)
    (m_xsectprovider i) (m_composition i) (m_custom i) (m_lock i)
    (m_atomDataSPs i) (m_displayLabels i).
Definition set_m_temp (v : option double) (i : Info) : Info :=
  mkInfo (m_uid i) (m_structinfo i) (m_atomlist i) (m_hkllist i)
    (m_dyninfolist i) (m_hkl_dlower_and_dupper i) (m_density i)
    (m_numberdensity i) (m_xsect_free i) (m_xsect_absorption i) v
    (m_xsectprovider i) (m_composition i) (m_custom i) (m_lock i)
    (m_atomDataSPs i) (m_displayLabels i).
Definition set_m_xsectprovider (v : XSectProvider) (i : Info) : Info :=
  mkInfo (m_uid i) (m_structinfo i) (m_atomlist i) (m_hkllist i)
    (m_dyninfolist i) (m_hkl_dlower_and_dupper i) (m_density i)
    (m_numberdensity i) (m_xsect_free i) (m_xsect_absorption i) (m_temp i)
    v (m_composition i) (m_custom i) (m_lock i)
    (m_atomDataSPs i) (m_displayLabels i).
Definition set_m_composition (v : Composition) (i : Info) : Info :=
  mkInfo (m_uid i) (m_structinfo i) (m_atomlist i) (m_hkllist i)
    (m_dyninfolist i) (m_hkl_dlower_and_dupper i) (m_density i)
    (m_numberdensity i) (m_xsect_free i) (m_xsect_absorption i) (m_temp i)
    (m_xsectprovider i) v (m_custom i) (m_lock i)
    (m_atomDataSPs i) (m_displayLabels i).
Definition set_m_custom (v : CustomData) (i : Info) : Info :=
  mkInfo (m_uid i) (m_structinfo i) (m_atomlist i) (m_hkllist i)
    (m_dyninfolist i) (m_hkl_dlower_and_dupper i) (m_density i)
    (m_numberdensity i) (m_xsect_free i) (m_xsect_absorption i) (m_temp i)
    (m_xsectprovider i) (m_composition i) v (m_lock i)
    (m_atomDataSPs i) (m_displayLabels i).
Definition set_m_lock (v : bool) (i : Info) : Info :=
  mkInfo (m_uid i) (m_structinfo i) (m_atomlist i) (m_hkllist i)
    (m_dyninfolist i) (m_hkl_dlower_and_dupper i) (m_density i)
    (m_numberdensity i) (m_xsect_free i) (m_xsect_absorption i) (m_temp i)
    (m_xsectprovider i) (m_composition i) (m_custom i) v
    (m_atomDataSPs i) (m_displayLabels i).
Definition set_m_atomDataSPs (v : list AtomDataSP) (i : Info) : Info :=
  mkInfo (m_uid i) (m_structinfo i) (m_atomlist i) (m_hkllist i)
    (m_dyninfolist i) (m_hkl_dlower_and_dupper i) (m_density i)
    (m_numberdensity i) (m_xsect_free i) (m_xsect_absorption i) (m_temp i)
    (m_xsectprovider i) (m_composition i) (m_custom i) (m_lock i)
    v (m_displayLabels i).

Definition has_value {A : Type} (o : option A) : bool :=
  match o with Some _ => true | None => false end.

(** ** The member functions *)
Section Members.
(** Whether the library is compiled without debug assertions. *)
Variable NDEBUG : bool.

(** Modelled from the spec: [nc_assert_always] and [nc_assert] (the macros
    are defined in NCDefs.hh, which is not part of the sources at hand).  A
    failed assertion is a programming error, reported as a [LogicError];
    [nc_assert] is compiled out of a build with [NDEBUG]. *)
Definition nc_assert_always (cond : bool) (what : string) : Except unit :=
  if cond then OK tt
  else Throw (LogicError (String.append "Assertion failure: " what)).

Definition nc_assert (cond : bool) (what : string) : Except unit :=
  if NDEBUG then OK tt else nc_assert_always cond what.

(** [Optional<T>::value()] *)
Definition value {A : Type} (o : option A) : Except A :=
  match o with
  | Some v => OK v
  | None => Throw UndefinedBehaviour
  end.

(** *** Read access (the inline implementations of NCInfo.hh) *)

Definition isLocked (i : Info) : bool := m_lock i.

Definition hasStructureInfo (i : Info) : bool := has_value (m_structinfo i).

Definition getStructureInfo (i : Info) : Except StructureInfo :=
  nc_assert (hasStructureInfo i) "hasStructureInfo()" ;;;
  value (m_structinfo i).

Definition hasXSectAbsorption (i : Info) : bool :=
  has_value (m_xsect_absorption i).
Definition hasXSectFree (i : Info) : bool := has_value (m_xsect_free i).
Definition getXSectAbsorption (i : Info) : Except double :=
  nc_assert (hasXSectAbsorption i) "hasXSectAbsorption()" ;;;
  value (m_xsect_absorption i).
Definition getXSectFree (i : Info) : Except double :=
  nc_assert (hasXSectFree i) "hasXSectFree()" ;;; value (m_xsect_free i).

Definition providesNonBraggXSects (i : Info) : bool :=
  has_value (m_xsectprovider i).
(** [nc_assert(!!m_xsectprovider); return m_xsectprovider(ekin);]: calling an
    empty [std::function] throws [std::bad_function_call]. *)
Definition xsectScatNonBragg (ekin : double) (i : Info) : Except double :=
  nc_assert (has_value (m_xsectprovider i)) "!!m_xsectprovider" ;;;
  match m_xsectprovider i with
  | Some f => OK (f ekin)
  | None => Throw BadFunctionCall
  end.

Definition hasTemperature (i : Info) : bool := has_value (m_temp i).
Definition getTemperature (i : Info) : Except double :=
  nc_assert (hasTemperature i) "hasTemperature()" ;;; value (m_temp i).

Definition getAtomInfos (i : Info) : AtomInfoList := m_atomlist i.

Definition hasAtomInfo (i : Info) : bool :=
  negb (match m_atomlist i with [] => true | _ :: _ => false end).

(** [hasAtomInfo() && m_atomlist.front().msd().has_value()]: [front()] is
    only evaluated on a list that is not empty. *)
Definition hasAtomMSD (i : Info) : bool :=
  hasAtomInfo i &&
  match m_atomlist i with
  | a :: _ => has_value (msd a)
  | [] => false
  end.

Definition hasAtomDebyeTemp (i : Info) : bool :=
  hasAtomInfo i &&
  match m_atomlist i with
  | a :: _ => has_value (debyeTemp a)
  | [] => false
  end.

Definition hasDebyeTemperature (i : Info) : bool := hasAtomDebyeTemp i.

(** Iterators into a vector are positions, from [0] to its size. *)
Definition atomInfoBegin (i : Info) : nat := 0.
Definition atomInfoEnd (i : Info) : nat := length (m_atomlist i).

Definition hasHKLInfo (i : Info) : bool :=
  has_value (m_hkl_dlower_and_dupper i).

Definition hklList (i : Info) : HKLList := m_hkllist i.

Definition hkl_empty (i : Info) : bool :=
  match m_hkllist i with [] => true | _ :: _ => false end.

Definition hasExpandedHKLInfo (i : Info) : bool :=
  hasHKLInfo i && negb (hkl_empty i) &&
  match m_hkllist i with
  | r :: _ => has_value (eqv_hkl r)
  | [] => false
  end.

Definition hasHKLDemiNormals (i : Info) : bool :=
  hasHKLInfo i && negb (hkl_empty i) &&
  match m_hkllist i with
  | r :: _ => negb (match demi_normals r with [] => true | _ => false end)
  | [] => false
  end.

(** [unsigned nHKL() { return m_hkllist.size(); }] *)
Definition nHKL (i : Info) : N := to_unsigned (length (m_hkllist i)).

Definition hklBegin (i : Info) : nat := 0.
Definition hklEnd (i : Info) : nat := length (m_hkllist i).
Definition hklLast (i : Info) : nat :=
  if hkl_empty i then hklEnd i else Nat.pred (hklEnd i).

Definition hklDLower (i : Info) : Except double :=
  nc_assert (hasHKLInfo i) "hasHKLInfo()" ;;;
  p <- value (m_hkl_dlower_and_dupper i) ;; OK (fst p).
Definition hklDUpper (i : Info) : Except double :=
  nc_assert (hasHKLInfo i) "hasHKLInfo()" ;;;
  p <- value (m_hkl_dlower_and_dupper i) ;; OK (snd p).

Definition hasDensity (i : Info) : bool := has_value (m_density i).
Definition getDensity (i : Info) : Except double :=
  nc_assert (hasDensity i) "hasDensity()" ;;; value (m_density i).
Definition hasNumberDensity (i : Info) : bool :=
  has_value (m_numberdensity i).
Definition getNumberDensity (i : Info) : Except double :=
  nc_assert (hasNumberDensity i) "hasNumberDensity()" ;;;
  value (m_numberdensity i).

Definition hasDynamicInfo (i : Info) : bool :=
  negb (match m_dyninfolist i with [] => true | _ :: _ => false end).
Definition getDynamicInfoList (i : Info) : DynamicInfoList :=
  m_dyninfolist i.

Definition hasComposition (i : Info) : bool :=
  negb (match m_composition i with [] => true | _ :: _ => false end).
Definition getComposition (i : Info) : Composition := m_composition i.
Definition getAllCustomSections (i : Info) : CustomData := m_custom i.

(** Obsolete alias: [hasAtomPositions() { return hasAtomInfo(); }] *)
Definition hasAtomPositions (i : Info) : bool := hasAtomInfo i.
Definition hasAnyDebyeTemperature (i : Info) : bool := hasAtomDebyeTemp i.

Definition isCrystalline (i : Info) : bool :=
  hasStructureInfo i || hasAtomPositions i || hasHKLInfo i.

(** *** The obsolete Debye temperature accessors *)

Definition obsolete_msg : string :=
  "The concept of global versus per-element Debye temperatures has been removed. Revisit NCInfo.hh to see how to get Debye temperatures from the AtomInfo objects (and note the new hasAtomDebyeTemp() method).".

Definition throwObsoleteDebyeTemp : Except unit :=
  Throw (LogicError obsolete_msg).

Definition getGlobalDebyeTemperature (i : Info) : Except double :=
  throwObsoleteDebyeTemp ;;; OK (-1.0)%float.

Definition hasPerElementDebyeTemperature (i : Info) : Except bool :=
  throwObsoleteDebyeTemp ;;; OK (hasAtomDebyeTemp i).

Definition getDebyeTemperatureByElement (ai : AtomIndex) (i : Info)
  : Except double :=
  throwObsoleteDebyeTemp ;;; OK (-1.0)%float.

(** *** Building the object *)

(** Modelled from the spec: [Info::ensureNoLock] (declared in NCInfo.hh,
    defined in a source file that is not at hand).  "All mutating operations
    assert the object is still Building; calling any mutator after finalize
    is a programming-error condition": an invariant violation, hence a
    [LogicError], exactly when [m_lock] is set. *)
Definition ensureNoLock (i : Info) : Except unit :=
  if m_lock i
  then Throw (LogicError "Modification of a locked Info object")
  else OK tt.

Definition addAtom (ai : AtomInfo) (i : Info) : Except Info :=
  ensureNoLock i ;;; OK (set_m_atomlist (m_atomlist i ++ [ai]) i).

Definition addHKL (hi : HKLInfo) (i : Info) : Except Info :=
  ensureNoLock i ;;; OK (set_m_hkllist (m_hkllist i ++ [hi]) i).

Definition setHKLList (hkllist : HKLList) (i : Info) : Except Info :=
  ensureNoLock i ;;; OK (set_m_hkllist hkllist i).

Definition setStructInfo (si : StructureInfo) (i : Info) : Except Info :=
  ensureNoLock i ;;;
  nc_assert_always (negb (has_value (m_structinfo i)))
    "!m_structinfo.has_value()" ;;;
  OK (set_m_structinfo (Some si) i).

Definition setXSectFree (x : double) (i : Info) : Except Info :=
  ensureNoLock i ;;; OK (set_m_xsect_free (Some x) i).

Definition setXSectAbsorption (x : double) (i : Info) : Except Info :=
  ensureNoLock i ;;; OK (set_m_xsect_absorption (Some x) i).

Definition setTemperature (t : double) (i : Info) : Except Info :=
  ensureNoLock i ;;; OK (set_m_temp (Some t) i).

Definition setDensity (d : double) (i : Info) : Except Info :=
  ensureNoLock i ;;; OK (set_m_density (Some d) i).

Definition setNumberDensity (d : double) (i : Info) : Except Info :=
  ensureNoLock i ;;; OK (set_m_numberdensity (Some d) i).

Definition setXSectProvider (xsp : XSectProvider) (i : Info) : Except Info :=
  ensureNoLock i ;;;
  nc_assert (has_value xsp) "!!xsp" ;;;
  OK (set_m_xsectprovider xsp i).

Definition addDynInfo (di : option DynamicInfo) (i : Info) : Except Info :=
  ensureNoLock i ;;;
  nc_assert (has_value di) "di" ;;;
  OK (set_m_dyninfolist (m_dyninfolist i ++ [di]) i).

Definition setComposition (c : Composition) (i : Info) : Except Info :=
  ensureNoLock i ;;; OK (set_m_composition c i).

Definition setCustomData (cd : CustomData) (i : Info) : Except Info :=
  ensureNoLock i ;;; OK (set_m_custom cd i).

(** Modelled from the spec: [Info::enableHKLInfo] (declared in NCInfo.hh,
    body not at hand).  It is the one member that can set the "separate
    presence flag carrying the [dlower,dupper] window"; as a mutating
    operation it asserts that the object is still being built. *)
Definition enableHKLInfo (dlower dupper : double) (i : Info) : Except Info :=
  ensureNoLock i ;;;
  OK (set_m_hkl_dlower_and_dupper (Some (dlower, dupper)) i).

(** Modelled from the spec: [Info::hklDMinVal] and, below, [Info::hklDMaxVal]
    (declared in NCInfo.hh with the comment "both returns inf if nHKL=0",
    bodies not at hand).  On a list that is not empty they are the d-spacing
    of the first and of the last reflection, the list being kept in
    ascending d-spacing. *)
Definition hklDMinVal (i : Info) : double :=
  match m_hkllist i with
  | [] => kInfinity
  | r :: _ => dspacing r
  end.

(** Modelled from the spec: [Info::hklDMaxVal], as [hklDMinVal] above. *)
Definition hklDMaxVal (i : Info) : double :=
  match m_hkllist i with
  | [] => kInfinity
  | r :: rest => dspacing (last rest r)
  end.

(** *** Finalisation *)

Definition hkl_lex_lt (a b : HKLInfo) : bool :=
  ((h a <? h b) ||
   ((h a =? h b) &&
    ((k a <? k b) || ((k a =? k b) && (l a <? l b)))))%Z.

(** Modelled from the spec: the order of the reflection list, "by d-spacing
    then by (h,k,l)", ascending, as a strict comparator for a sort. *)
Definition dhkl_compare (a b : HKLInfo) : bool :=
  if PrimFloat.ltb (dspacing a) (dspacing b) then true
  else if PrimFloat.ltb (dspacing b) (dspacing a) then false
  else hkl_lex_lt a b.

(** Modelled from the spec: the order of the atom list, "by atomic
    number". *)
Definition atominfo_compare (a b : AtomInfo) : bool :=
  (ad_Z (atomDataSP (atom a)) <? ad_Z (atomDataSP (atom b)))%N.

Fixpoint find_index {A : Type} (p : A -> bool) (xs : list A) : option nat :=
  match xs with
  | [] => None
  | x :: xs' => if p x then Some 0
                else match find_index p xs' with
                     | Some n => Some (S n)
                     | None => None
                     end
  end.

(** "Sharing the same IndexedAtom (by atom identity, not index-only)". *)
Definition same_atom (a b : IndexedAtomData) : bool :=
  iad_eq a b && (ad_ptr (atomDataSP a) =? ad_ptr (atomDataSP b))%N.

Definition link_atom (dyn : DynamicInfoList) (a : AtomInfo) : AtomInfo :=
  mkAtomInfo (m_iad a) (m_dt a) (m_msd a) (m_pos a)
    (find_index
       (fun od => match od with
                  | Some d => same_atom (m_atom d) (atom a)
                  | None => false
                  end) dyn).

Definition link_dyn (atoms : AtomInfoList) (od : option DynamicInfo)
  : option DynamicInfo :=
  match od with
  | Some d =>
      Some (mkDynamicInfo (di_kind d) (m_fraction d) (m_atom d)
              (m_temperature d)
              (find_index (fun a => same_atom (atom a) (m_atom d)) atoms))
  | None => None
  end.

(** The table from atom index to atom data, read off the composition. *)
Definition build_atomDataSPs (c : Composition) : list AtomDataSP :=
  map (fun e => atomDataSP (ce_atom e))
    (stable_sort (fun a b => iad_lt (ce_atom a) (ce_atom b)) c).

(** Modelled from the spec: [Info::objectDone] (declared in NCInfo.hh with
    the comment "sorts hkl list (by dspacing first), and atom info list (by
    Z first). This locks the instance", body not at hand).  The "single
    finalize transition sorts the reflection list by d-spacing then by
    (h,k,l), sorts the atom list by atomic number, cross-links each
    AtomInfo and DynamicInfo pair sharing the same IndexedAtom, builds the
    atom-index to composition-record lookup table and display labels, and
    transitions to Locked"; calling it on a locked object is a programming
    error.  Nothing in that description inspects the contents of a
    reflection or of an atom, and nothing is checked here.  The display
    labels are left as they are: the specification names them without a
    rule for them. *)
Definition objectDone (i : Info) : Except Info :=
  ensureNoLock i ;;;
  let hkls := stable_sort dhkl_compare (m_hkllist i) in
  let atoms := stable_sort atominfo_compare (m_atomlist i) in
  let atoms' := map (link_atom (m_dyninfolist i)) atoms in
  let dyns' := map (link_dyn atoms) (m_dyninfolist i) in
  OK (set_m_lock true
        (set_m_atomDataSPs (build_atomDataSPs (m_composition i))
           (set_m_dyninfolist dyns'
              (set_m_atomlist atoms'
                 (set_m_hkllist hkls i))))).

(** *** The properties the specification states of a finalised object *)





(** "If demi_normals is not empty, it will be true that multiplicity ==
    2*demi_normals.size()" (comment of [HKLInfo]). *)
Definition demi_normals_consistent (r : HKLInfo) : Prop :=
  demi_normals r <> [] ->
  multiplicity r = (2 * N.of_nat (length (demi_normals r)))%N.

(** *** Calls of the builder interface

    One constructor for each mutating member with its arguments, to speak
    about arbitrary calls and sequences of calls. *)
Inductive MutatorCall : Type :=
| Call_addAtom (ai : AtomInfo)
| Call_addHKL (hi : HKLInfo)
| Call_setHKLList (hkllist : HKLList)
| Call_setStructInfo (si : StructureInfo)
| Call_setXSectFree (x : double)
| Call_setXSectAbsorption (x : double)
| Call_setTemperature (t : double)
| Call_setDensity (d : double)
| Call_setNumberDensity (d : double)
| Call_setXSectProvider (xsp : XSectProvider)
| Call_addDynInfo (di : option DynamicInfo)
| Call_setComposition (c : Composition)
| Call_setCustomData (cd : CustomData).

Definition call (m : MutatorCall) (i : Info) : Except Info :=
  match m with
  | Call_addAtom ai => addAtom ai i
  | Call_addHKL hi => addHKL hi i
  | Call_setHKLList hkllist => setHKLList hkllist i
  | Call_setStructInfo si => setStructInfo si i
  | Call_setXSectFree x => setXSectFree x i
  | Call_setXSectAbsorption x => setXSectAbsorption x i
  | Call_setTemperature t => setTemperature t i
  | Call_setDensity d => setDensity d i
  | Call_setNumberDensity d => setNumberDensity d i
  | Call_setXSectProvider xsp => setXSectProvider xsp i
  | Call_addDynInfo di => addDynInfo di i
  | Call_setComposition c => setComposition c i
  | Call_setCustomData cd => setCustomData cd i
  end.

(** A caller that issues the calls one after the other and catches every
    exception: the number of calls that went through. *)
Fixpoint successful_calls (ms : list MutatorCall) (i : Info) : nat :=
  match ms with
  | [] => 0
  | m :: ms' =>
      match call m i with
      | OK i' => S (successful_calls ms' i')
      | Throw _ => successful_calls ms' i
      end
  end.

End Members.

End NCInfo.

(** ** The once-only build of [DI_ScatKnlDirect] *)
Module ScatKnlDirect.

(** A [SABData] object is identified by the execution of [buildSAB] that made
    it: two executions make two different objects. *)
Definition SABDataPtr : Type := nat.

(** Where a call stands. *)
Inductive pc : Type :=
| Waiting                     (* before [lock_guard lock(m_mutex)] *)
| Checking                    (* holds the mutex, before [if (!m_sabdata)] *)
| Building                    (* holds the mutex, inside [buildSAB()] *)
| Storing (p : SABDataPtr)    (* holds the mutex, before [m_sabdata = p] *)
| Returning                   (* holds the mutex, before [return m_sabdata] *)
| Returned (p : SABDataPtr).  (* has returned [p] and released the mutex *)

Record state : Type := mkState {
  m_sabdata : option SABDataPtr;   (* the cache, [None] for the null pointer *)
  m_mutex : option nat;            (* the thread that holds the mutex *)
  n_builds : nat;                  (* how often [buildSAB] has run *)
  threads : list pc
}.

(** [n] calls, none of them started, on an instance that has built nothing. *)
Definition init (n : nat) : state := mkState None None 0 (repeat Waiting n).

Fixpoint update (t : nat) (c : pc) (l : list pc) : list pc :=
  match l, t with
  | [], _ => []
  | _ :: l', O => c :: l'
  | x :: l', S t' => x :: update t' c l'
  end.

(** Modelled from the spec: [DI_ScatKnlDirect::ensureBuildThenReturnSAB]
    (declared in NCInfo.hh beside the members [m_sabdata] and [m_mutex]; its
    body is not at hand).  "A per-instance mutual-exclusion guard ...; the
    guard scope covers check cache, build if absent, store, return", and
    [buildSAB] "will only be called once and in an MT-safe context, protected
    by per-object mutex".  Each call is a thread that takes the mutex, tests
    [m_sabdata], calls [buildSAB] and stores its result when the cache is
    empty, copies [m_sabdata] as its result and releases the mutex on leaving
    the scope.  Threads interleave between these steps.

    One step of thread [t]; [None] when it cannot move (it waits for the
    mutex, it has returned, or there is no such thread). *)
Definition step_thread (t : nat) (s : state) : option state :=
  match nth_error (threads s) t with
  | None => None
  | Some Waiting =>
      match m_mutex s with
      | None => Some (mkState (m_sabdata s) (Some t) (n_builds s)
                        (update t Checking (threads s)))
      | Some _ => None
      end
  | Some Checking =>
      match m_sabdata s with
      | None => Some (mkState (m_sabdata s) (m_mutex s) (n_builds s)
                        (update t Building (threads s)))
      | Some _ => Some (mkState (m_sabdata s) (m_mutex s) (n_builds s)
                          (update t Returning (threads s)))
      end
  | Some Building =>
      Some (mkState (m_sabdata s) (m_mutex s) (S (n_builds s))
              (update t (Storing (S (n_builds s))) (threads s)))
  | Some (Storing p) =>
      Some (mkState (Some p) (m_mutex s) (n_builds s)
              (update t Returning (threads s)))
  | Some Returning =>
      match m_sabdata s with
      | Some p => Some (mkState (m_sabdata s) None (n_builds s)
                          (update t (Returned p) (threads s)))
      | None => None
      end
  | Some (Returned _) => None
  end.

(** A schedule names the thread that moves at each step. *)
Fixpoint run (schedule : list nat) (s : state) : option state :=
  match schedule with
  | [] => Some s
  | t :: rest =>
      match step_thread t s with
      | Some s' => run rest s'
      | None => None
      end
  end.

Definition reachable (s0 s : state) : Prop :=
  exists schedule, run schedule s0 = Some s.

Definition has_returned (c : pc) : bool :=
  match c with Returned _ => true | _ => false end.

Definition all_returned (s : state) : bool := forallb has_returned (threads s).

(** Modelled from the spec: [DI_ScatKnlDirect::hasBuiltSAB] (declared in
    NCInfo.hh, body not at hand), the "query-only is it already built check":
    a look at the cache. *)
Definition hasBuiltSAB (s : state) : bool :=
  match m_sabdata s with Some _ => true | None => false end.

(** The positions in which a thread holds the mutex. *)
Definition holding (c : pc) : bool :=
  match c with
  | Checking | Building | Storing _ | Returning => true
  | Waiting | Returned _ => false
  end.

(** What the position of a thread says about the cache and the count. *)
Definition thread_ok (s : state) (c : pc) : Prop :=
  match c with
  | Waiting => True
  | Checking => m_sabdata s = None -> n_builds s = 0
  | Building => m_sabdata s = None /\ n_builds s = 0
  | Storing p => m_sabdata s = None /\ n_builds s = 1 /\ p = 1
  | Returning => m_sabdata s <> None
  | Returned p => m_sabdata s = Some p
  end.

(** What holds of every state that can arise. *)
Record Inv (s : state) : Prop := mkInv {
  inv_owner : forall t, m_mutex s = Some t ->
      exists c, nth_error (threads s) t = Some c /\ holding c = true;
  inv_holder : forall u c, nth_error (threads s) u = Some c ->
      holding c = true -> m_mutex s = Some u;
  inv_cache : forall p, m_sabdata s = Some p -> p = 1 /\ n_builds s = 1;
  inv_free : m_mutex s = None -> m_sabdata s = None -> n_builds s = 0;
  inv_threads : forall u c, nth_error (threads s) u = Some c -> thread_ok s c
}.

(** The steps a call still has before it. *)
Definition weight (c : pc) : nat :=
  match c with
  | Waiting => 5 | Checking => 4 | Building => 3 | Storing _ => 2
  | Returning => 1 | Returned _ => 0
  end.

Definition remaining (s : state) : nat := list_sum (map weight (threads s)).

End ScatKnlDirect.

(** ** NCLatticeUtils.hh *)
Module LatticeUtils.
Local Open Scope R_scope.

(** Modelled from the spec: [RotMatrix] (NCRotMatrix.hh is not part of the
    sources at hand), a 3x3 matrix given by its rows. *)
Definition Vector : Type := (R * R * R)%type.

Record RotMatrix : Type := mkRotMatrix {
  row0 : Vector;
  row1 : Vector;
  row2 : Vector
}.

Definition mag (v : Vector) : R :=
  let '(x, y, z) := v in sqrt (x * x + y * y + z * z).

Definition k2Pi : R := 2 * PI.

Definition Rleb (x y : R) : bool := if Rle_dec x y then true else false.
Definition Rltb (x y : R) : bool := if Rlt_dec x y then true else false.
Definition Reqb (x y : R) : bool := if Req_dec_T x y then true else false.

(** The bound along one axis: "max_i = floor(2pi / (dcutoff * |row_i|)), with
    a minimum of 0 if dcutoff is non-positive or unreachable". *)
Definition axis_bound (dcutoff : R) (row : Vector) : Z :=
  if Rleb dcutoff 0 then 0%Z
  else Z.max 0 (Zfloor (k2Pi / (dcutoff * mag row))).

(** Modelled from the spec: [estimateHKLRange] (declared in
    NCLatticeUtils.hh, body not at hand).  The reference arguments [max_h],
    [max_k] and [max_l] are returned, each "using the reciprocal matrix's row
    norms (each row's magnitude gives the maximum index needed along that
    axis)". *)
Definition estimateHKLRange (dcutoff : R) (rec_lat : RotMatrix) : Z * Z * Z :=
  (axis_bound dcutoff (row0 rec_lat),
   axis_bound dcutoff (row1 rec_lat),
   axis_bound dcutoff (row2 rec_lat)).

(** A double that is a number or an infinity: dividing a number that is not
    zero by zero gives an infinity. *)
Inductive ExtR : Type :=
| NegInf
| Finite (r : R)
| PosInf.


Definition ExtR_min (x y : ExtR) : ExtR :=
  match x, y with
  | NegInf, _ => NegInf
  | Finite _, NegInf => NegInf
  | Finite a, Finite b => Finite (Rmin a b)
  | Finite a, PosInf => Finite a
  | PosInf, z => z
  end.

(** The cutoff along one axis: "2pi / (maxHKL * |row_i|)".  For a box of size
    0, or a row of length 0, the divisor is a zero with the sign of [maxHKL]
    (a length is [+0] or more), and the quotient is the infinity of that
    sign. *)
Definition axis_cutoff (max_hkl : Z) (row : Vector) : ExtR :=
  if Reqb (IZR max_hkl * mag row) 0
  then (if (max_hkl <? 0)%Z then NegInf else PosInf)
  else Finite (k2Pi / (IZR max_hkl * mag row)).

(** Modelled from the spec: [estimateDCutoff] (declared in NCLatticeUtils.hh,
    body not at hand).  "Computed as the minimum over axes of 2pi / (maxHKL *
    |row_i|)". *)
Definition estimateDCutoff (max_hkl : Z) (rec_lat : RotMatrix) : ExtR :=
  ExtR_min (axis_cutoff max_hkl (row0 rec_lat))
    (ExtR_min (axis_cutoff max_hkl (row1 rec_lat))
       (axis_cutoff max_hkl (row2 rec_lat))).


(** Modelled from the spec: the axis lengths a space group forces to be equal
    ("tetragonal requires a==b, cubic requires a==b==c, trigonal/hexagonal
    families may require a==b"), by the number of the group in the
    International Tables: [a == b] from the tetragonal groups on (75 to 230),
    [a == c] in the cubic groups (195 to 230). *)
Definition requires_a_eq_b (spacegroup : N) : bool :=
  ((75 <=? spacegroup) && (spacegroup <=? 230))%N.
Definition requires_a_eq_c (spacegroup : N) : bool :=
  ((195 <=? spacegroup) && (spacegroup <=? 230))%N.

(** A length that must equal [a]: [0] stands for "not given". *)
Definition complete_length (a x : R) : Except R :=
  if Reqb x 0 then OK a
  else if Reqb x a then OK x
  else Throw (BadInput "lattice lengths are not compatible with the spacegroup").

(** Modelled from the spec: [checkAndCompleteLattice] (declared in
    NCLatticeUtils.hh, body not at hand).  The reference arguments [b] and [c]
    are returned.  It "fills in a zero-valued b or c with the mandated equal
    value" and "fails with an input-validation error when: the spacegroup
    number is out of the valid range [1,230]; a provided non-zero b/c
    contradicts the symmetry-mandated equality; or a length required to be
    positive is zero/negative". *)
Definition checkAndCompleteLattice (spacegroup : N) (a b c : R)
  : Except (R * R) :=
  if ((spacegroup <? 1) || (230 <? spacegroup))%N
  then Throw (BadInput "invalid spacegroup number")
  else
    b' <- (if requires_a_eq_b spacegroup then complete_length a b else OK b) ;;
    c' <- (if requires_a_eq_c spacegroup then complete_length a c else OK c) ;;
    if Rltb 0 a && Rltb 0 b' && Rltb 0 c'
    then OK (b', c')
    else Throw (BadInput "lattice lengths must be positive").

End LatticeUtils.

(** ** Sample objects *)
Module Samples.
Import Double NCInfo.

Definition hkl_111 : HKLInfo := mkHKLInfo 2.0 1.5 1 1 1 8 [] None.
Definition hkl_200 : HKLInfo := mkHKLInfo 1.0 0.5 2 0 0 6 [] None.
Definition hkl_002 : HKLInfo := mkHKLInfo 1.0 0.5 0 0 2 6 [] None.

(** A reflection that lists one demi-normal and claims three equivalent
    planes. *)
Definition hkl_odd : HKLInfo :=
  mkHKLInfo 1.0 0.5 0 0 1 3 [(0.0, 0.0, 1.0)%float] None.

Definition Al : IndexedAtomData := mkIndexedAtomData (mkAtomDataSP 1 13) 0.
Definition O : IndexedAtomData := mkIndexedAtomData (mkAtomDataSP 2 8) 1.

Definition atom_Al_msd : AtomInfo :=
  mkAtomInfo Al (Some 400.0%float) (Some 0.25%float) [(0.0, 0.0, 0.0)%float] None.
Definition atom_O_plain : AtomInfo :=
  mkAtomInfo O None None [(0.5, 0.5, 0.5)%float] None.

Definition dyn_Al : DynamicInfo := mkDynamicInfo DI_FreeGas 0.5 Al 300.0 None.

(** The object a call sequence leaves, the empty object if a call throws. *)
Definition built (m : Except Info) : Info :=
  match m with OK i => i | Throw _ => Info_default 0 end.

(** A factory at work: two atoms, three reflections out of order. *)
Definition building : Info :=
  built (i1 <- addAtom atom_Al_msd (Info_default 7) ;;
         i2 <- addAtom atom_O_plain i1 ;;
         i3 <- enableHKLInfo 0.5 10.0 i2 ;;
         i4 <- addHKL hkl_111 i3 ;;
         i5 <- addHKL hkl_200 i4 ;;
         i6 <- addHKL hkl_002 i5 ;;
         addDynInfo true (Some dyn_Al) i6).

Definition finished : Info := built (objectDone building).

(** The same with a reflection whose multiplicity does not fit. *)
Definition building_odd : Info :=
  built (i1 <- enableHKLInfo 0.5 10.0 (Info_default 8) ;; addHKL hkl_odd i1).


End Samples.

(** ** NCInfo.hh: further members *)
Module NCInfoMore.
Import Double NCInfo.

Section Members.
Variable NDEBUG : bool.

(** [std::vector<T>::operator[]]: an element that is there, no defined result
    out of range. *)
Definition at_index {A : Type} (v : list A) (n : N) : Except A :=
  match nth_error v (N.to_nat n) with
  | Some x => OK x
  | None => Throw UndefinedBehaviour
  end.

(** [ai.get() < v.size()] *)
Definition in_range {A : Type} (ai : AtomIndex) (v : list A) : bool :=
  (ai <? N.of_nat (length v))%N.

Definition displayLabel (ai : AtomIndex) (i : Info) : Except string :=
  nc_assert NDEBUG (in_range ai (m_displayLabels i))
    "ai.get()<m_displayLabels.size()" ;;;
  at_index (m_displayLabels i) ai.

(** [Info::atomDataSP(const AtomIndex&)] *)
Definition Info_atomDataSP (ai : AtomIndex) (i : Info) : Except AtomDataSP :=
  nc_assert NDEBUG (in_range ai (m_atomDataSPs i))
    "ai.get() < m_atomDataSPs.size()" ;;;
  at_index (m_atomDataSPs i) ai.

(** [Info::atomData(const AtomIndex&)]: the same element, as a reference to
    the pointee. *)
Definition Info_atomData (ai : AtomIndex) (i : Info) : Except AtomDataSP :=
  nc_assert NDEBUG (in_range ai (m_atomDataSPs i))
    "ai.get() < m_atomDataSPs.size()" ;;;
  at_index (m_atomDataSPs i) ai.

(** [return IndexedAtomData{m_atomDataSPs[ai.get()],{ai}};] *)
Definition Info_indexedAtomData (ai : AtomIndex) (i : Info)
  : Except IndexedAtomData :=
  nc_assert NDEBUG (in_range ai (m_atomDataSPs i))
    "ai.get() < m_atomDataSPs.size()" ;;;
  sp <- at_index (m_atomDataSPs i) ai ;;
  OK (mkIndexedAtomData sp ai).

(** "Sanity check (same index means same AtomData instance)":
    [atomDataSP == o.atomDataSP || index != o.index], the shared pointers
    compared by the object they point to. *)
Definition same_instance_or_other_index (a o : IndexedAtomData) : bool :=
  (ad_ptr (atomDataSP a) =? ad_ptr (atomDataSP o))%N
  || negb (index a =? index o)%N.

Definition sanity_msg : string :=
  "Assertion failure: atomDataSP == o.atomDataSP || index != o.index".

(** [IndexedAtomData::operator<] and [operator==] with their assertion. *)
Definition IndexedAtomData_lt (a o : IndexedAtomData) : Except bool :=
  nc_assert NDEBUG (same_instance_or_other_index a o)
    "atomDataSP == o.atomDataSP || index != o.index" ;;;
  OK (iad_lt a o).

Definition IndexedAtomData_eq (a o : IndexedAtomData) : Except bool :=
  nc_assert NDEBUG (same_instance_or_other_index a o)
    "atomDataSP == o.atomDataSP || index != o.index" ;;;
  OK (iad_eq a o).

(** The constructor of [DI_VDOSDebye], on the object its base class
    constructor [DI_ScatKnl(fr, atom, tt)] has set up:
    [m_dt(dt) { nc_assert(m_dt.get()>0.0); }]. *)
Definition DI_VDOSDebye_ctor (base : DynamicInfo) (dt : double)
  : Except DynamicInfo :=
  nc_assert NDEBUG (PrimFloat.ltb 0 dt) "m_dt.get()>0.0" ;;;
  OK (mkDynamicInfo (DI_VDOSDebye dt) (m_fraction base) (m_atom base)
        (m_temperature base) (m_atomInfo base)).

(** A factory's script: the calls one after the other, the first exception
    ending it. *)
Fixpoint apply_calls (ms : list MutatorCall) (i : Info) : Except Info :=
  match ms with
  | [] => OK i
  | m :: ms' => i' <- call NDEBUG m i ;; apply_calls ms' i'
  end.

End Members.

(** [DI_VDOSDebye::debyeTemperature()], a member of that class only. *)
Definition debyeTemperature (d : DynamicInfo) : option double :=
  match di_kind d with
  | DI_VDOSDebye dt => Some dt
  | _ => None
  end.

(** [AtomInfo::correspondingDynamicInfo()] and
    [DynamicInfo::correspondingAtomInfo()]: the back-references, [None] for
    [nullptr]. *)
Definition correspondingDynamicInfo (a : AtomInfo) : option nat := m_dyninfo a.
Definition correspondingAtomInfo (d : DynamicInfo) : option nat := m_atomInfo d.

(** What a presence test and its accessor owe each other, for a member
    [field] of type [Optional<A>]: the test tells whether the member is set;
    when it is, the accessor returns its value in every build; when it is
    not, the accessor of a build with assertions throws a [LogicError]. *)
Definition accessor_pair {A : Type} (field : Info -> option A)
  (has : Info -> bool) (get : bool -> Info -> Except A) (i : Info) : Prop :=
  has i = has_value (field i) /\
  (forall v, field i = Some v -> forall NDEBUG, get NDEBUG i = OK v) /\
  (field i = None -> is_LogicError (get false i)).

(** Whether a call passes a null pointer or an empty function. *)
Definition null_argument (m : MutatorCall) : bool :=
  match m with
  | Call_setXSectProvider None => true
  | Call_addDynInfo None => true
  | _ => false
  end.

Definition is_setStructInfo (m : MutatorCall) : bool :=
  match m with Call_setStructInfo _ => true | _ => false end.

End NCInfoMore.

(** ** Further sample objects *)
Module MoreSamples.
Import Double NCInfo NCInfoMore.

(** An object with its tables filled in: two atoms, two labels. *)
Definition with_tables : Info :=
  mkInfo 9 None [] [] [] None None None None None None None [] [] true
    [atomDataSP Samples.Al; atomDataSP Samples.O] ["Al"; "O"]%string.

(** A factory's script for an object that is still being built. *)
Definition script : list MutatorCall :=
  [Call_setDensity 2.5; Call_setTemperature 300.0;
   Call_setStructInfo (mkStructureInfo 225 4.0 4.0 4.0 90.0 90.0 90.0 64.0 4);
   Call_addHKL Samples.hkl_odd; Call_setComposition []].

Definition scripted : Info :=
  Samples.built (apply_calls false script Samples.building).




End MoreSamples.

(** ** Facts about [stable_sort] *)
Section StableSortFacts.
Variable A : Type.
Variable comp : A -> A -> bool.

Lemma insert_stable_perm x l : Permutation (x :: l) (insert_stable comp x l).
Proof.
  induction l as [|y l IH]; simpl; [reflexivity|].
  destruct (comp x y); [reflexivity|].
  rewrite perm_swap. now apply perm_skip.
Qed.

Lemma fold_insert_perm l acc :
  Permutation (acc ++ l) (fold_left (fun a x => insert_stable comp x a) l acc).
Proof.
  revert acc; induction l as [|x l IH]; intros acc; simpl.
  - now rewrite app_nil_r.
  - transitivity (insert_stable comp x acc ++ l); [|apply IH].
    transitivity ((x :: acc) ++ l).
    + symmetry. apply Permutation_middle.
    + apply Permutation_app_tail, insert_stable_perm.
Qed.

Lemma stable_sort_perm l : Permutation l (stable_sort comp l).
Proof. exact (fold_insert_perm l []). Qed.

Lemma stable_sort_In l x : In x (stable_sort comp l) <-> In x l.
Proof.
  split; intro H.
  - eapply Permutation_in; [symmetry; apply stable_sort_perm | exact H].
  - eapply Permutation_in; [apply stable_sort_perm | exact H].
Qed.

(** Sortedness, for elements on which [comp] is a strict weak order. *)
Variable good : A -> Prop.
Hypothesis comp_negtrans :
  forall x y z, good x -> good y -> good z ->
                comp y x = false -> comp z y = false -> comp z x = false.
Hypothesis comp_asym :
  forall x y, good x -> good y -> comp x y = true -> comp y x = false.



End StableSortFacts.


(** ** Facts about the comparison of doubles *)
Module DoubleFacts.
Import Double.

Ltac by_rank :=
  repeat match goal with
    | b : bool |- _ => destruct b
    end;
  simpl;
  repeat match goal with
    | |- context [Z.compare ?a ?b] => destruct (Z.compare_spec a b)
    | |- context [Pos.compare_cont Eq ?a ?b] =>
        change (Pos.compare_cont Eq a b) with (Pos.compare a b);
        destruct (Pos.compare_spec a b)
    end;
  simpl; split; intro; try discriminate; try reflexivity; try lia.


Lemma SFeqb_eq3 f g :
  ordered f -> ordered g -> SFeqb f g = true <-> eq3 f g.
Proof.
  unfold ordered, SFeqb, eq3.
  destruct f as [s| s| |s m e], g as [s'| s'| |s' m' e']; intros Hf Hg;
    try congruence; by_rank.
Qed.

Lemma SFeqb_refl_ordered f : SFeqb f f = true <-> ordered f.
Proof.
  unfold ordered, SFeqb. destruct f as [s| s| |s m e]; simpl.
  - split; [discriminate | reflexivity].
  - destruct s; (split; [discriminate | reflexivity]).
  - split; [discriminate | congruence].
  - rewrite Z.compare_refl.
    change (Pos.compare_cont Eq m m) with (Pos.compare m m).
    rewrite Pos.compare_refl.
    destruct s; (split; [discriminate | reflexivity]).
Qed.

Lemma isnan_false x : isnan x = false <-> ordered (Prim2SF x).
Proof.
  unfold isnan. rewrite eqb_spec, negb_false_iff. apply SFeqb_refl_ordered.
Qed.


Lemma eqb_eq3 x y :
  isnan x = false -> isnan y = false ->
  PrimFloat.eqb x y = true <-> eq3 (Prim2SF x) (Prim2SF y).
Proof.
  rewrite !isnan_false, eqb_spec. apply SFeqb_eq3.
Qed.


Lemma eqb_false_eq3 x y :
  isnan x = false -> isnan y = false ->
  PrimFloat.eqb x y = false <-> ~ eq3 (Prim2SF x) (Prim2SF y).
Proof.
  intros Hx Hy. rewrite <- (eqb_eq3 x y Hx Hy).
  destruct (PrimFloat.eqb x y); split; congruence.
Qed.

End DoubleFacts.


(** ** Facts about [Info] *)
Module InfoFacts.
Import Double DoubleFacts NCInfo.










Lemma ensureNoLock_unlocked i : m_lock i = false -> ensureNoLock i = OK tt.
Proof. unfold ensureNoLock. now intros ->. Qed.

Lemma ensureNoLock_locked i :
  m_lock i = true ->
  ensureNoLock i = Throw (LogicError "Modification of a locked Info object").
Proof. unfold ensureNoLock. now intros ->. Qed.

(** What [objectDone] returns, and when. *)
Lemma objectDone_inv i i' :
  objectDone i = OK i' ->
  m_lock i = false /\
  m_lock i' = true /\
  m_hkllist i' = stable_sort dhkl_compare (m_hkllist i) /\
  m_atomlist i' =
    map (link_atom (m_dyninfolist i))
      (stable_sort atominfo_compare (m_atomlist i)) /\
  m_hkl_dlower_and_dupper i' = m_hkl_dlower_and_dupper i.
Proof.
  unfold objectDone, ensureNoLock. destruct (m_lock i) eqn:E; simpl.
  - discriminate.
  - intro H. injection H as <-. simpl. auto.
Qed.

Lemma objectDone_total i :
  m_lock i = false -> exists i', objectDone i = OK i'.
Proof.
  intro H. unfold objectDone. rewrite (ensureNoLock_unlocked i H). simpl.
  eexists. reflexivity.
Qed.

(** The thirteen mutating members all start with [ensureNoLock()]. *)
Lemma call_locked NDEBUG m i :
  m_lock i = true ->
  call NDEBUG m i = Throw (LogicError "Modification of a locked Info object").
Proof.
  intro H. destruct m; simpl;
    unfold addAtom, addHKL, setHKLList, setStructInfo, setXSectFree,
      setXSectAbsorption, setTemperature, setDensity, setNumberDensity,
      setXSectProvider, addDynInfo, setComposition, setCustomData;
    rewrite (ensureNoLock_locked i H); reflexivity.
Qed.

Lemma successful_calls_locked NDEBUG ms i :
  m_lock i = true -> successful_calls NDEBUG ms i = 0.
Proof.
  intro H. induction ms as [|m ms IH]; simpl; [reflexivity|].
  now rewrite (call_locked NDEBUG m i H).
Qed.

(** C1. Once [objectDone] has succeeded the object is locked, and each of the
    thirteen mutating members of [Info] ([addAtom], [addHKL], [setHKLList],
    [setStructInfo], [setXSectFree], [setXSectAbsorption], [setTemperature],
    [setDensity], [setNumberDensity], [setXSectProvider], [addDynInfo],
    [setComposition], [setCustomData]) throws a [LogicError], whatever its
    argument and whether or not assertions are compiled in; of any sequence of
    such calls, none goes through. *)
Theorem mutators_fail_after_objectDone (NDEBUG : bool) (i i' : Info) :
  objectDone i = OK i' ->
  isLocked i' = true /\
  (forall ai, is_LogicError (addAtom ai i')) /\
  (forall hi, is_LogicError (addHKL hi i')) /\
  (forall hkllist, is_LogicError (setHKLList hkllist i')) /\
  (forall si, is_LogicError (setStructInfo si i')) /\
  (forall x, is_LogicError (setXSectFree x i')) /\
  (forall x, is_LogicError (setXSectAbsorption x i')) /\
  (forall t, is_LogicError (setTemperature t i')) /\
  (forall d, is_LogicError (setDensity d i')) /\
  (forall d, is_LogicError (setNumberDensity d i')) /\
  (forall xsp, is_LogicError (setXSectProvider NDEBUG xsp i')) /\
  (forall di, is_LogicError (addDynInfo NDEBUG di i')) /\
  (forall c, is_LogicError (setComposition c i')) /\
  (forall cd, is_LogicError (setCustomData cd i')) /\
  (forall ms, successful_calls NDEBUG ms i' = 0).
Proof.
  intro H. apply objectDone_inv in H. destruct H as (_ & Hl & _).
  pose proof (fun m => call_locked NDEBUG m i' Hl) as C.
  assert (L : forall m, is_LogicError (call NDEBUG m i')).
  { intro m. unfold is_LogicError. eexists. apply C. }
  split; [exact Hl|].
  split; [intro x; exact (L (Call_addAtom x))|].
  split; [intro x; exact (L (Call_addHKL x))|].
  split; [intro x; exact (L (Call_setHKLList x))|].
  split; [intro x; exact (L (Call_setStructInfo x))|].
  split; [intro x; exact (L (Call_setXSectFree x))|].
  split; [intro x; exact (L (Call_setXSectAbsorption x))|].
  split; [intro x; exact (L (Call_setTemperature x))|].
  split; [intro x; exact (L (Call_setDensity x))|].
  split; [intro x; exact (L (Call_setNumberDensity x))|].
  split; [intro x; exact (L (Call_setXSectProvider x))|].
  split; [intro x; exact (L (Call_addDynInfo x))|].
  split; [intro x; exact (L (Call_setComposition x))|].
  split; [intro x; exact (L (Call_setCustomData x))|].
  intro ms. now apply successful_calls_locked.
Qed.

Lemma mutators_fail_after_objectDone_witness :
  objectDone Samples.building = OK Samples.finished /\
  isLocked Samples.finished = true /\
  is_LogicError (setDensity 1.0 Samples.finished) /\
  successful_calls false
    [Call_addHKL Samples.hkl_odd; Call_setTemperature 300.0;
     Call_setCustomData []] Samples.finished = 0.
Proof.
  assert (H : objectDone Samples.building = OK Samples.finished)
    by (vm_compute; reflexivity).
  split; [exact H|].
  pose proof (@mutators_fail_after_objectDone false _ _ H) as T.
  split; [apply T|]. split; apply T.
Defined.

(** The fraction of a [DynamicInfo] is not behind the lock: [changeFraction]
    is a member of [DynamicInfo], which knows nothing of the [Info] that owns
    it, and always goes through. *)
Lemma changeFraction_unguarded (f : double) (d : DynamicInfo) :
  fraction (changeFraction f d) = f.
Proof. reflexivity. Qed.








(** The sample object after finalisation: oxygen (Z = 8) stands before
    aluminium (Z = 13), the aluminium entry and the one [DynamicInfo] point at
    each other, and the d-spacings run from 1 to 2. *)
Example finished_sample :
  map (fun a => ad_Z (atomDataSP (atom a))) (m_atomlist Samples.finished)
    = [8; 13]%N /\
  map m_dyninfo (m_atomlist Samples.finished) = [None; Some 0] /\
  map (option_map m_atomInfo) (m_dyninfolist Samples.finished)
    = [Some (Some 1)] /\
  nHKL Samples.finished = 3%N /\
  hklLast Samples.finished = 2 /\
  hklDMinVal Samples.finished = 1.0%float /\
  hklDMaxVal Samples.finished = 2.0%float /\
  hklDLower true Samples.finished = OK 0.5%float /\
  isCrystalline Samples.finished = true.
Proof. vm_compute. repeat split. Qed.

(** The demi-normals of the reflections.  [addHKL] stores the reflection it
    is given as it is: no inline member compares the number of demi-normals
    with the multiplicity, so an object that is still being built can hold a
    reflection for which [demi_normals_consistent] fails. *)
Lemma addHKL_stores_as_given :
  In Samples.hkl_odd (m_hkllist Samples.building_odd) /\
  ~ demi_normals_consistent Samples.hkl_odd.
Proof.
  split; [vm_compute; auto|].
  unfold demi_normals_consistent. intro H.
  assert (E : multiplicity Samples.hkl_odd = 2%N) by (apply H; discriminate).
  discriminate E.
Qed.

(** [objectDone], as modelled, rearranges the reflections and changes none:
    the reflections of the object it leaves are those handed to the
    builder. *)
Lemma objectDone_keeps_reflections (i i' : Info) (r : HKLInfo) :
  objectDone i = OK i' -> (In r (m_hkllist i') <-> In r (m_hkllist i)).
Proof.
  intro H. apply objectDone_inv in H. destruct H as (_ & _ & Hh & _).
  rewrite Hh. split; intro Hr.
  - now apply stable_sort_In in Hr.
  - now apply stable_sort_In.
Qed.

(** C7. [hasAtomMSD] looks at the first entry of the atom list and at nothing
    else: it is true exactly when the list has a first entry and that entry
    has a mean squared displacement, whatever the other entries have; and the
    same for [hasAtomDebyeTemp] and the Debye temperature. *)
Theorem hasAtomMSD_first_entry_only (i : Info) :
  (hasAtomMSD i = true <->
   exists a rest, m_atomlist i = a :: rest /\ has_value (msd a) = true) /\
  (hasAtomDebyeTemp i = true <->
   exists a rest, m_atomlist i = a :: rest /\ has_value (debyeTemp a) = true).
Proof.
  unfold hasAtomMSD, hasAtomDebyeTemp, hasAtomInfo.
  destruct (m_atomlist i) as [|a rest]; simpl; split; split.
  - discriminate.
  - intros (a & rest & E & _). discriminate E.
  - discriminate.
  - intros (a & rest & E & _). discriminate E.
  - intro H. now exists a, rest.
  - intros (a' & rest' & E & H). injection E as <- <-. exact H.
  - intro H. now exists a, rest.
  - intros (a' & rest' & E & H). injection E as <- <-. exact H.
Qed.

(** On a list that is deliberately mixed the answer follows the first entry. *)
Example hasAtomMSD_mixed_lists :
  hasAtomMSD (set_m_atomlist [Samples.atom_Al_msd; Samples.atom_O_plain]
                (Info_default 0)) = true /\
  hasAtomMSD (set_m_atomlist [Samples.atom_O_plain; Samples.atom_Al_msd]
                (Info_default 0)) = false /\
  hasAtomDebyeTemp (set_m_atomlist [Samples.atom_O_plain; Samples.atom_Al_msd]
                      (Info_default 0)) = false.
Proof. repeat split. Qed.

Lemma nc_assert_true NDEBUG what : nc_assert NDEBUG true what = OK tt.
Proof. unfold nc_assert, nc_assert_always. now destruct NDEBUG. Qed.

(** C8. On an object whose reflection list is empty: [nHKL] is 0, [hklBegin]
    and [hklLast] both equal [hklEnd], and [hklDMinVal] and [hklDMaxVal] are
    infinity.  Whether reflection information is there is a separate matter:
    [hasHKLInfo] is false exactly when the optional pair [dlower, dupper] is
    not set; when it is set [hklDLower] and [hklDUpper] give it back; and
    [enableHKLInfo] sets it on an object that is still being built, the list
    staying empty. *)
Theorem empty_hkl_list_accessors (NDEBUG : bool) (i : Info) :
  m_hkllist i = [] ->
  nHKL i = 0%N /\
  hklBegin i = hklEnd i /\
  hklLast i = hklEnd i /\
  hklDMinVal i = infinity /\
  hklDMaxVal i = infinity /\
  (hasHKLInfo i = false <-> m_hkl_dlower_and_dupper i = None) /\
  (forall dlower dupper,
      m_hkl_dlower_and_dupper i = Some (dlower, dupper) ->
      hasHKLInfo i = true /\
      hklDLower NDEBUG i = OK dlower /\ hklDUpper NDEBUG i = OK dupper) /\
  (isLocked i = false ->
   forall dlower dupper,
   exists i', enableHKLInfo dlower dupper i = OK i' /\
              m_hkllist i' = [] /\ hasHKLInfo i' = true /\
              hklDLower NDEBUG i' = OK dlower /\
              hklDUpper NDEBUG i' = OK dupper).
Proof.
  intro E.
  split; [unfold nHKL; now rewrite E|].
  split; [unfold hklBegin, hklEnd; now rewrite E|].
  split; [unfold hklLast, hkl_empty; now rewrite E|].
  split; [unfold hklDMinVal; now rewrite E|].
  split; [unfold hklDMaxVal; now rewrite E|].
  split; [|split].
  - unfold hasHKLInfo. destruct (m_hkl_dlower_and_dupper i); simpl;
      split; congruence.
  - intros dl du P. unfold hklDLower, hklDUpper, hasHKLInfo.
    rewrite P. simpl. rewrite nc_assert_true. auto.
  - intros L dl du. unfold isLocked in L.
    unfold enableHKLInfo. rewrite (ensureNoLock_unlocked i L). simpl.
    eexists. split; [reflexivity|].
    unfold hklDLower, hklDUpper, hasHKLInfo. simpl.
    rewrite nc_assert_true. auto.
Qed.

Lemma empty_hkl_list_accessors_witness :
  m_hkllist (Info_default 0) = [] /\
  hasHKLInfo (Info_default 0) = false /\
  hklLast (Info_default 0) = hklEnd (Info_default 0) /\
  hklDMinVal (Info_default 0) = infinity.
Proof.
  pose proof (@empty_hkl_list_accessors false (Info_default 0) eq_refl) as T.
  split; [reflexivity|]. split; [apply T; reflexivity|]. split; apply T.
Defined.

(** C9. The three obsolete Debye temperature accessors throw, on every object
    and for every argument, the [LogicError] whose message sends the caller to
    the [AtomInfo] objects and to [hasAtomDebyeTemp]; none returns a value. *)
Theorem obsolete_accessors_always_throw (i : Info) (ai : AtomIndex) :
  getGlobalDebyeTemperature i = Throw (LogicError obsolete_msg) /\
  hasPerElementDebyeTemperature i = Throw (LogicError obsolete_msg) /\
  getDebyeTemperatureByElement ai i = Throw (LogicError obsolete_msg).
Proof. repeat split. Qed.

(** C10. [isCrystalline] is true exactly when the object has structure
    information, or atom information (the atom list is not empty;
    [hasAtomPositions] is the same test), or reflection information. *)
Theorem isCrystalline_iff (i : Info) :
  (isCrystalline i = true <->
   hasStructureInfo i = true \/ hasAtomInfo i = true \/ hasHKLInfo i = true) /\
  hasAtomPositions i = hasAtomInfo i /\
  (hasAtomInfo i = true <-> m_atomlist i <> []).
Proof.
  unfold isCrystalline, hasAtomPositions. split; [|split].
  - rewrite !orb_true_iff. tauto.
  - reflexivity.
  - unfold hasAtomInfo. destruct (m_atomlist i); simpl; split;
      congruence.
Qed.

End InfoFacts.

(** ** Facts about the once-only build *)
Module KernelFacts.
Import ScatKnlDirect.

Lemma update_length t c l : length (update t c l) = length l.
Proof.
  revert t; induction l as [|x l IH]; intros [|t]; simpl; auto.
Qed.

Lemma nth_error_update t c l u :
  nth_error (update t c l) u =
  if Nat.eqb u t then match nth_error l t with Some _ => Some c | None => None end
  else nth_error l u.
Proof.
  revert t u; induction l as [|x l IH]; intros [|t] [|u]; simpl; auto.
  destruct (Nat.eqb u t); reflexivity.
Qed.

Lemma nth_error_update_inv t c l u c' c0 :
  nth_error l t = Some c0 ->
  nth_error (update t c l) u = Some c' ->
  (u = t /\ c' = c) \/ (u <> t /\ nth_error l u = Some c').
Proof.
  intros H0 H. rewrite nth_error_update in H.
  destruct (Nat.eqb_spec u t) as [->|N].
  - rewrite H0 in H. injection H as <-. now left.
  - now right.
Qed.

Lemma nth_error_update_same t c l c0 :
  nth_error l t = Some c0 -> nth_error (update t c l) t = Some c.
Proof.
  intro H. rewrite nth_error_update, Nat.eqb_refl. now rewrite H.
Qed.

Lemma Inv_init n : Inv (init n).
Proof.
  constructor; simpl; try discriminate; auto.
  - intros u c H. apply nth_error_In, repeat_spec in H. now subst.
  - intros u c H. apply nth_error_In, repeat_spec in H. now subst.
Qed.

Ltac other_thread :=
  match goal with
  | I : Inv ?s, Hm : m_mutex ?s = Some ?t, N : ?u <> ?t,
    Hu : nth_error (threads ?s) ?u = Some ?c |- _ =>
      let Hh := fresh "Hh" in
      let E := fresh "E" in
      assert (Hh : holding c = false)
        by (destruct (holding c) eqn:E; [|reflexivity];
            pose proof (@inv_holder _ I u c Hu E); congruence)
  end.

Lemma step_Inv t s s' : step_thread t s = Some s' -> Inv s -> Inv s'.
Proof.
  unfold step_thread. intros H I.
  destruct (nth_error (threads s) t) as [c|] eqn:Ht; [|discriminate].
  pose proof (@inv_threads _ I t c Ht) as Ok.
  destruct c as [| | |p| |p]; simpl in Ok.
  - (* Waiting: takes the mutex *)
    destruct (m_mutex s) eqn:Hm; [discriminate|]. injection H as <-.
    constructor; simpl.
    + intros t' E. injection E as <-. exists Checking.
      split; [eapply nth_error_update_same; eauto | reflexivity].
    + intros u c Hu Hc.
      destruct (@nth_error_update_inv _ _ _ _ _ _ Ht Hu) as [[-> _]|[N Hu']]; auto.
      pose proof (@inv_holder _ I u c Hu' Hc). congruence.
    + apply (@inv_cache _ I).
    + discriminate.
    + intros u c Hu.
      destruct (@nth_error_update_inv _ _ _ _ _ _ Ht Hu) as [[-> ->]|[N Hu']].
      * simpl. intro E. now apply (@inv_free _ I).
      * pose proof (@inv_threads _ I u c Hu') as T. destruct c; exact T.
  - (* Checking *)
    assert (Hm : m_mutex s = Some t) by (eapply inv_holder; eauto).
    destruct (m_sabdata s) as [p|] eqn:Hc; injection H as <-.
    + constructor; simpl.
      * intros t' E. rewrite Hm in E. injection E as <-. exists Returning.
        split; [eapply nth_error_update_same; eauto | reflexivity].
      * intros u c Hu Hh.
        destruct (@nth_error_update_inv _ _ _ _ _ _ Ht Hu) as [[-> _]|[N Hu']]; auto.
        eapply inv_holder; eauto.
      * rewrite <- Hc. apply (@inv_cache _ I).
      * rewrite Hm. discriminate.
      * intros u c Hu.
        destruct (@nth_error_update_inv _ _ _ _ _ _ Ht Hu) as [[-> ->]|[N Hu']].
        -- simpl. congruence.
        -- pose proof (@inv_threads _ I u c Hu') as T.
           destruct c; simpl in *; rewrite ?Hc in *; exact T.
    + constructor; simpl.
      * intros t' E. rewrite Hm in E. injection E as <-. exists Building.
        split; [eapply nth_error_update_same; eauto | reflexivity].
      * intros u c Hu Hh.
        destruct (@nth_error_update_inv _ _ _ _ _ _ Ht Hu) as [[-> _]|[N Hu']]; auto.
        eapply inv_holder; eauto.
      * rewrite <- Hc. apply (@inv_cache _ I).
      * rewrite Hm. discriminate.
      * intros u c Hu.
        destruct (@nth_error_update_inv _ _ _ _ _ _ Ht Hu) as [[-> ->]|[N Hu']].
        -- simpl. auto.
        -- pose proof (@inv_threads _ I u c Hu') as T.
           destruct c; simpl in *; rewrite ?Hc in *; exact T.
  - (* Building: buildSAB runs *)
    assert (Hm : m_mutex s = Some t) by (eapply inv_holder; eauto).
    destruct Ok as [Hc Hn]. injection H as <-.
    constructor; simpl.
    + intros t' E. rewrite Hm in E. injection E as <-. eexists.
      split; [eapply nth_error_update_same; eauto | reflexivity].
    + intros u c Hu Hh.
      destruct (@nth_error_update_inv _ _ _ _ _ _ Ht Hu) as [[-> _]|[N Hu']]; auto.
      eapply inv_holder; eauto.
    + intros p E. congruence.
    + rewrite Hm. discriminate.
    + intros u c Hu.
      destruct (@nth_error_update_inv _ _ _ _ _ _ Ht Hu) as [[-> ->]|[N Hu']].
      * simpl. rewrite Hn. auto.
      * other_thread. pose proof (@inv_threads _ I u c Hu') as T.
        destruct c; simpl in *; try discriminate; auto.
  - (* Storing *)
    assert (Hm : m_mutex s = Some t) by (eapply inv_holder; eauto).
    destruct Ok as (Hc & Hn & ->). injection H as <-.
    constructor; simpl.
    + intros t' E. rewrite Hm in E. injection E as <-. eexists.
      split; [eapply nth_error_update_same; eauto | reflexivity].
    + intros u c Hu Hh.
      destruct (@nth_error_update_inv _ _ _ _ _ _ Ht Hu) as [[-> _]|[N Hu']]; auto.
      eapply inv_holder; eauto.
    + intros p E. injection E as <-. auto.
    + rewrite Hm. discriminate.
    + intros u c Hu.
      destruct (@nth_error_update_inv _ _ _ _ _ _ Ht Hu) as [[-> ->]|[N Hu']].
      * simpl. discriminate.
      * other_thread. pose proof (@inv_threads _ I u c Hu') as T.
        destruct c; simpl in *; try discriminate; auto. congruence.
  - (* Returning: copies the cache, releases the mutex *)
    assert (Hm : m_mutex s = Some t) by (eapply inv_holder; eauto).
    destruct (m_sabdata s) as [p|] eqn:Hc; [|discriminate]. injection H as <-.
    constructor; simpl.
    + discriminate.
    + intros u c Hu Hh.
      destruct (@nth_error_update_inv _ _ _ _ _ _ Ht Hu) as [[-> ->]|[N Hu']];
        [discriminate|].
      other_thread. congruence.
    + rewrite <- Hc. apply (@inv_cache _ I).
    + intros _ E. discriminate E.
    + intros u c Hu.
      destruct (@nth_error_update_inv _ _ _ _ _ _ Ht Hu) as [[-> ->]|[N Hu']].
      * reflexivity.
      * pose proof (@inv_threads _ I u c Hu') as T.
        destruct c; simpl in *; rewrite ?Hc in *; exact T.
  - discriminate.
Qed.

Lemma run_Inv sched : forall s s', run sched s = Some s' -> Inv s -> Inv s'.
Proof.
  induction sched as [|t sched IH]; simpl; intros s s' H I.
  - now injection H as <-.
  - destruct (step_thread t s) as [s1|] eqn:E; [|discriminate].
    eapply IH; eauto. eapply step_Inv; eauto.
Qed.

Lemma step_length t s s' :
  step_thread t s = Some s' -> length (threads s') = length (threads s).
Proof.
  unfold step_thread. intro H.
  destruct (nth_error (threads s) t) as [[| | |p| |p]|]; try discriminate;
    repeat match type of H with
      | match ?x with _ => _ end = _ => destruct x
      end; try discriminate; injection H as <-; simpl; apply update_length.
Qed.

Lemma run_length sched : forall s s',
  run sched s = Some s' -> length (threads s') = length (threads s).
Proof.
  induction sched as [|t sched IH]; simpl; intros s s' H.
  - now injection H as <-.
  - destruct (step_thread t s) as [s1|] eqn:E; [|discriminate].
    rewrite (IH _ _ H). eapply step_length; eauto.
Qed.

Lemma update_weight t c c0 l :
  nth_error l t = Some c0 -> weight c < weight c0 ->
  list_sum (map weight (update t c l)) < list_sum (map weight l).
Proof.
  revert t; induction l as [|x l IH]; intros [|t] H W; simpl in *;
    try discriminate.
  - injection H as ->. lia.
  - specialize (IH t H W). lia.
Qed.

Lemma step_remaining t s s' :
  step_thread t s = Some s' -> remaining s' < remaining s.
Proof.
  unfold step_thread, remaining. intro H.
  destruct (nth_error (threads s) t) as [c|] eqn:Ht; [|discriminate].
  destruct c as [| | |p| |p];
    repeat match type of H with
      | match ?x with _ => _ end = _ => destruct x
      end; try discriminate; injection H as <-; simpl;
    (eapply update_weight; [exact Ht | simpl; lia]).
Qed.

Lemma not_all_returned l :
  forallb has_returned l = false ->
  exists u c, nth_error l u = Some c /\ has_returned c = false.
Proof.
  induction l as [|x l IH]; simpl; [discriminate|].
  destruct (has_returned x) eqn:E; simpl.
  - intro H. destruct (IH H) as (u & c & Hu & Hc). now exists (S u), c.
  - intros _. now exists 0, x.
Qed.

(** No deadlock: while a call has not returned, some thread can move. *)
Lemma progress s :
  Inv s -> all_returned s = false -> exists t s', step_thread t s = Some s'.
Proof.
  intros I H. apply not_all_returned in H. destruct H as (u & c & Hu & Hc).
  destruct (m_mutex s) as [t|] eqn:Hm.
  - destruct (@inv_owner _ I t Hm) as (ct & Ht & Hh).
    pose proof (@inv_threads _ I t ct Ht) as Ok.
    exists t. unfold step_thread. rewrite Ht.
    destruct ct as [| | |p| |p]; try discriminate Hh; simpl in Ok.
    + destruct (m_sabdata s); eauto.
    + eauto.
    + eauto.
    + destruct (m_sabdata s); [eauto | congruence].
  - exists u. unfold step_thread. rewrite Hu, Hm.
    destruct c as [| | |p| |p]; try discriminate Hc; eauto;
      pose proof (@inv_holder _ I u _ Hu eq_refl); congruence.
Qed.

(** Every call returns: from a state that can arise, some schedule brings all
    threads to their return. *)
Lemma completes m : forall s,
  remaining s <= m -> Inv s ->
  exists sched s', run sched s = Some s' /\ all_returned s' = true.
Proof.
  induction m as [|m IH]; intros s Hm I.
  - destruct (all_returned s) eqn:A; [now exists [], s|].
    destruct (progress I A) as (t & s' & St).
    apply step_remaining in St. lia.
  - destruct (all_returned s) eqn:A; [now exists [], s|].
    destruct (progress I A) as (t & s1 & St).
    assert (I1 : Inv s1) by (eapply step_Inv; eauto).
    pose proof (step_remaining _ _ St) as D.
    destruct (IH s1 ltac:(lia) I1) as (sched & s' & R & F).
    exists (t :: sched), s'. simpl. rewrite St. auto.
Qed.

Lemma all_returned_same s p0 :
  Inv s -> m_sabdata s = Some p0 -> all_returned s = true ->
  threads s = repeat (Returned p0) (length (threads s)).
Proof.
  intros I C A. unfold all_returned in A.
  assert (T : forall u c, nth_error (threads s) u = Some c -> c = Returned p0).
  { intros u c Hu. pose proof (@inv_threads _ I u c Hu) as Ok.
    rewrite forallb_forall in A. specialize (A c (nth_error_In _ _ Hu)).
    destruct c; try discriminate A. simpl in Ok. congruence. }
  clear A I C. induction (threads s) as [|x l IH]; simpl; [reflexivity|].
  f_equal.
  - apply (T 0 x eq_refl).
  - apply IH. intros u c Hu. apply (T (S u) c Hu).
Qed.

(** [hasBuiltSAB] builds nothing, and is never false again once the cache is
    filled. *)
Lemma hasBuiltSAB_stable t s s' :
  step_thread t s = Some s' -> hasBuiltSAB s = true -> hasBuiltSAB s' = true.
Proof.
  unfold step_thread, hasBuiltSAB. intros H B.
  destruct (m_sabdata s) as [p|] eqn:C; [|discriminate B].
  destruct (nth_error (threads s) t) as [[| | |q| |q]|]; try discriminate H;
    try (destruct (m_mutex s); try discriminate H);
    injection H as <-; simpl; try rewrite C; reflexivity.
Qed.

(** C2. [n + 1] calls of [ensureBuildThenReturnSAB] are issued together on an
    instance that has built nothing, and interleave in any way the mutex
    allows.  In every state that can arise [buildSAB] has run at most once and
    the calls can all be brought to their return; and once all have returned,
    [buildSAB] has run exactly once and every call has returned the one object
    that is in the cache. *)
Theorem once_only_build (n : nat) (s : state) :
  reachable (init (S n)) s ->
  n_builds s <= 1 /\
  (exists s', reachable s s' /\ all_returned s' = true) /\
  (all_returned s = true ->
   n_builds s = 1 /\
   exists p, m_sabdata s = Some p /\ threads s = repeat (Returned p) (S n)).
Proof.
  intros [sched R].
  assert (I : Inv s) by (eapply run_Inv; [exact R | apply Inv_init]).
  assert (L : length (threads s) = S n).
  { rewrite (run_length _ _ R). simpl. now rewrite repeat_length. }
  split; [|split].
  - destruct (m_sabdata s) as [p|] eqn:C.
    + destruct (@inv_cache _ I p C). lia.
    + destruct (m_mutex s) as [t|] eqn:M.
      * destruct (@inv_owner _ I t M) as (c & Ht & Hh).
        pose proof (@inv_threads _ I t c Ht) as Ok.
        destruct c; try discriminate Hh; simpl in Ok;
          try (specialize (Ok C)); try lia; try congruence.
      * rewrite (@inv_free _ I M C). lia.
  - destruct (@completes (remaining s) s (le_n _) I) as (sc & s' & Rs & F).
    exists s'. split; [now exists sc | exact F].
  - intro A.
    destruct (threads s) as [|c l] eqn:T; [discriminate L|].
    assert (Hc : has_returned c = true).
    { unfold all_returned in A. rewrite T in A. simpl in A.
      now apply andb_prop in A. }
    destruct c as [| | |p| |p]; try discriminate Hc.
    assert (C : m_sabdata s = Some p).
    { apply (@inv_threads _ I 0 (Returned p)). now rewrite T. }
    split; [apply (@inv_cache _ I p C)|].
    exists p. split; [exact C|].
    rewrite <- T in L |- *. rewrite <- L. now apply all_returned_same.
Qed.

Lemma once_only_build_witness :
  reachable (init 2) (mkState (Some 1) None 1 [Returned 1; Returned 1]) /\
  n_builds (mkState (Some 1) None 1 [Returned 1; Returned 1]) = 1.
Proof.
  assert (R : reachable (init 2) (mkState (Some 1) None 1 [Returned 1; Returned 1])).
  { exists [1; 1; 1; 1; 1; 0; 0; 0]. reflexivity. }
  split; [exact R|].
  apply (@once_only_build 1 _ R). reflexivity.
Defined.

End KernelFacts.

(** ** Facts about the lattice utilities *)
Module LatticeFacts.
Import LatticeUtils.
Local Open Scope R_scope.

Lemma mag_x (x : R) : 0 <= x -> mag (x, 0, 0) = x.
Proof.
  intro H. unfold mag. replace (x * x + 0 * 0 + 0 * 0) with (x * x) by ring.
  now apply sqrt_square.
Qed.
Lemma mag_y (x : R) : 0 <= x -> mag (0, x, 0) = x.
Proof.
  intro H. unfold mag. replace (0 * 0 + x * x + 0 * 0) with (x * x) by ring.
  now apply sqrt_square.
Qed.
Lemma mag_z (x : R) : 0 <= x -> mag (0, 0, x) = x.
Proof.
  intro H. unfold mag. replace (0 * 0 + 0 * 0 + x * x) with (x * x) by ring.
  now apply sqrt_square.
Qed.

Lemma Rleb_false x y : y < x -> Rleb x y = false.
Proof. intro H. unfold Rleb. destruct (Rle_dec x y); [lra | reflexivity]. Qed.

Lemma axis_bound_pos d row :
  0 < d -> 0 <= mag row -> axis_bound d row = Zfloor (k2Pi / (d * mag row)).
Proof.
  intros Hd Hm. unfold axis_bound. rewrite Rleb_false by exact Hd.
  apply Z.max_r. apply Zfloor_lub. simpl.
  unfold k2Pi. pose proof PI_RGT_0.
  destruct (Req_dec_T (mag row) 0) as [E|E].
  - rewrite E, Rmult_0_r. unfold Rdiv. rewrite Rinv_0. lra.
  - apply Rle_mult_inv_pos; [lra|]. apply Rmult_lt_0_compat; lra.
Qed.

Lemma mag_nonneg row : 0 <= mag row.
Proof. destruct row as [[x y] z]. apply sqrt_pos. Qed.




(** A box of size 0 is complete down to any cutoff. *)
Lemma axis_cutoff_zero row : axis_cutoff 0 row = PosInf.
Proof.
  unfold axis_cutoff, Reqb. rewrite Rmult_0_l.
  destruct (Req_dec_T 0 0); [reflexivity | congruence].
Qed.








(** The same on a cubic cell, where no reflection reaches the cutoff: the
    bounds are 0 and the cutoff recovered is infinite. *)
Example cutoff_of_empty_box :
  let M := mkRotMatrix (2 * PI, 0, 0) (0, 2 * PI, 0) (0, 0, 2 * PI) in
  estimateHKLRange 2 M = (0, 0, 0)%Z /\ estimateDCutoff 0 M = PosInf.
Proof.
  pose proof PI_RGT_0 as P. cbv zeta. split.
  - unfold estimateHKLRange; cbn [row0 row1 row2].
    rewrite !axis_bound_pos by (try lra; apply mag_nonneg).
    rewrite mag_x, mag_y, mag_z by lra. unfold k2Pi.
    replace (2 * PI / (2 * (2 * PI))) with (1 / 2) by (field; lra).
    assert (F : Zfloor (1 / 2) = 0%Z) by (apply Zfloor_eq; simpl; lra).
    now rewrite F.
  - unfold estimateDCutoff. now rewrite !axis_cutoff_zero.
Qed.

Ltac lattice_cases :=
  unfold checkAndCompleteLattice, complete_length, Reqb, Rltb, is_BadInput;
  repeat match goal with
    | |- context [N.ltb ?x ?y] => destruct (N.ltb_spec x y)
    | |- context [requires_a_eq_b ?s] =>
        let E := fresh "Eb" in destruct (requires_a_eq_b s) eqn:E
    | |- context [requires_a_eq_c ?s] =>
        let E := fresh "Ec" in destruct (requires_a_eq_c s) eqn:E
    | |- context [Req_dec_T ?x ?y] => destruct (Req_dec_T x y)
    | |- context [Rlt_dec ?x ?y] => destruct (Rlt_dec x y)
    | _ => progress simpl
    end.

(** C5. For space group 225 and [a = 4.0], [b = c = 0] are completed to
    4.0, and [b = 3.9] is refused with [BadInput].  In general the call throws
    [BadInput] exactly when the space group number is outside 1..230, or a [b]
    or [c] that the symmetry ties to [a] is given (not zero) and differs from
    [a], or one of the lengths is zero or negative without being a zero that
    is completed; it throws nothing else, and when it returns, the lengths it
    returns are [a] for a completed zero and the given ones otherwise. *)
Theorem checkAndCompleteLattice_spec :
  checkAndCompleteLattice 225 4 0 0 = OK (4, 4) /\
  is_BadInput (checkAndCompleteLattice 225 4 (39 / 10) 0) /\
  (forall spacegroup a b c,
      is_BadInput (checkAndCompleteLattice spacegroup a b c) <->
      ((spacegroup < 1)%N \/ (230 < spacegroup)%N) \/
      (requires_a_eq_b spacegroup = true /\ b <> 0 /\ b <> a) \/
      (requires_a_eq_c spacegroup = true /\ c <> 0 /\ c <> a) \/
      (a <= 0 \/
       (b <= 0 /\ ~ (requires_a_eq_b spacegroup = true /\ b = 0)) \/
       (c <= 0 /\ ~ (requires_a_eq_c spacegroup = true /\ c = 0)))) /\
  (forall spacegroup a b c,
      is_BadInput (checkAndCompleteLattice spacegroup a b c) \/
      checkAndCompleteLattice spacegroup a b c =
        OK (if requires_a_eq_b spacegroup && Reqb b 0 then a else b,
            if requires_a_eq_c spacegroup && Reqb c 0 then a else c)).
Proof.
  split; [|split; [|split]].
  - lattice_cases; try reflexivity; try lra; try lia; try discriminate.
  - lattice_cases; try (eexists; reflexivity); try lra; try lia; try discriminate.
  - intros sg a b c. lattice_cases;
      (split; [intros [msg Hm]; try discriminate Hm | intro Hr]);
      try (eexists; reflexivity);
      try (intuition (try lia; try lra; try congruence; try discriminate)).
  - intros sg a b c. lattice_cases;
      try (left; eexists; reflexivity); try (right; reflexivity);
      try (right; subst; reflexivity).
Qed.

End LatticeFacts.

(** ** Facts about the further members and the builder interface *)
Module InfoMoreFacts.
Import Double DoubleFacts NCInfo NCInfoMore.

(** Runs a successful call to its end: the checks it passed, the object it
    returned. *)
Ltac passed H :=
  unfold addAtom, addHKL, setHKLList, setStructInfo, setXSectFree,
    setXSectAbsorption, setTemperature, setDensity, setNumberDensity,
    setXSectProvider, addDynInfo, setComposition, setCustomData in H;
  repeat match type of H with
    | bind ?x _ = OK _ =>
        let E := fresh "Chk" in
        destruct x as [[]|] eqn:E; simpl in H; [|discriminate H]
    end;
  injection H as <-.

Lemma nc_assert_passed NDEBUG c what :
  nc_assert NDEBUG c what = OK tt -> NDEBUG = true \/ c = true.
Proof.
  unfold nc_assert, nc_assert_always. destruct NDEBUG; [now left|].
  destruct c; [now right | discriminate].
Qed.

Lemma nc_assert_debug_false what :
  is_LogicError (nc_assert false false what).
Proof. unfold nc_assert, nc_assert_always, is_LogicError. eexists. reflexivity. Qed.

Lemma nc_assert_ok NDEBUG what : nc_assert NDEBUG true what = OK tt.
Proof. unfold nc_assert, nc_assert_always. now destruct NDEBUG. Qed.

(** X1. For each optional member and its pair of a presence test and an
    accessor (structure information, the two cross sections, temperature,
    density, number density, the two limits of the reflection window, and the
    non-Bragg cross section at an energy): the test tells whether the member
    is set; when it is, the accessor returns the stored value in every build;
    when it is not, the accessor of a build with assertions throws a
    [LogicError]. *)
Theorem presence_tests_and_accessors (i : Info) :
  accessor_pair m_structinfo hasStructureInfo getStructureInfo i /\
  accessor_pair m_xsect_absorption hasXSectAbsorption getXSectAbsorption i /\
  accessor_pair m_xsect_free hasXSectFree getXSectFree i /\
  accessor_pair m_temp hasTemperature getTemperature i /\
  accessor_pair m_density hasDensity getDensity i /\
  accessor_pair m_numberdensity hasNumberDensity getNumberDensity i /\
  accessor_pair (fun i => option_map fst (m_hkl_dlower_and_dupper i))
    hasHKLInfo hklDLower i /\
  accessor_pair (fun i => option_map snd (m_hkl_dlower_and_dupper i))
    hasHKLInfo hklDUpper i /\
  (forall ekin,
     accessor_pair (fun i => option_map (fun f => f ekin) (m_xsectprovider i))
       providesNonBraggXSects (fun NDEBUG => xsectScatNonBragg NDEBUG ekin) i).
Proof.
  unfold accessor_pair, getStructureInfo, getXSectAbsorption, getXSectFree,
    getTemperature, getDensity, getNumberDensity, hklDLower, hklDUpper,
    xsectScatNonBragg, hasStructureInfo, hasXSectAbsorption, hasXSectFree,
    hasTemperature, hasDensity, hasNumberDensity, hasHKLInfo,
    providesNonBraggXSects.
  repeat match goal with
    | |- _ /\ _ => split
    | |- forall ekin : double, _ /\ _ => intro
    end;
    try match goal with
      | |- context [has_value ?o] => destruct o as [x|]; simpl
      end;
    first
      [ reflexivity
      | intros;
        match goal with E : Some _ = Some _ |- _ => injection E as <- end;
        rewrite nc_assert_ok; reflexivity
      | intros; discriminate
      | intros; eexists; reflexivity ].
Qed.

(** X2. What a setter has stored, the accessor returns, in every build and
    whatever was stored before.  After a call of [setStructInfo],
    [setXSectFree], [setXSectAbsorption], [setTemperature], [setDensity],
    [setNumberDensity] or [setXSectProvider] (with a function) that went
    through, the presence test is true and the accessor gives the value of
    the call.  After [setComposition] the composition is the one of the call
    and [hasComposition] is true exactly when it is not empty.  After
    [setCustomData] [getAllCustomSections] gives the data of the call.  After
    [setHKLList] the reflection list is the list of the call, and
    [hasHKLInfo] is what it was before: the setter does not touch the
    d-spacing window that [hasHKLInfo] reads. *)
Theorem setters_then_accessors (NDEBUG NDEBUG' : bool) (i i' : Info) :
  (forall si, setStructInfo si i = OK i' ->
     hasStructureInfo i' = true /\ getStructureInfo NDEBUG' i' = OK si) /\
  (forall x, setXSectFree x i = OK i' ->
     hasXSectFree i' = true /\ getXSectFree NDEBUG' i' = OK x) /\
  (forall x, setXSectAbsorption x i = OK i' ->
     hasXSectAbsorption i' = true /\ getXSectAbsorption NDEBUG' i' = OK x) /\
  (forall t, setTemperature t i = OK i' ->
     hasTemperature i' = true /\ getTemperature NDEBUG' i' = OK t) /\
  (forall d, setDensity d i = OK i' ->
     hasDensity i' = true /\ getDensity NDEBUG' i' = OK d) /\
  (forall d, setNumberDensity d i = OK i' ->
     hasNumberDensity i' = true /\ getNumberDensity NDEBUG' i' = OK d) /\
  (forall f, setXSectProvider NDEBUG (Some f) i = OK i' ->
     providesNonBraggXSects i' = true /\
     forall ekin, xsectScatNonBragg NDEBUG' ekin i' = OK (f ekin)) /\
  (forall c, setComposition c i = OK i' ->
     getComposition i' = c /\ (hasComposition i' = true <-> c <> [])) /\
  (forall cd, setCustomData cd i = OK i' -> getAllCustomSections i' = cd) /\
  (forall hkllist, setHKLList hkllist i = OK i' ->
     hklList i' = hkllist /\ hklEnd i' = length hkllist /\
     hasHKLInfo i' = hasHKLInfo i).
Proof.
  repeat split; try (intros; match goal with H : _ = OK _ |- _ => passed H end).
  all: try reflexivity.
  all: try (unfold getStructureInfo, getXSectFree, getXSectAbsorption,
              getTemperature, getDensity, getNumberDensity, xsectScatNonBragg;
            simpl; rewrite nc_assert_ok; reflexivity).
  - match goal with
    | F : hasComposition _ = true |- _ =>
        unfold hasComposition in F; simpl in F;
        destruct c; [discriminate F | discriminate]
    end.
  - destruct c; [congruence | reflexivity].
Qed.

(** What no call of the builder interface touches, and what each leaves
    alone. *)
Lemma call_frame NDEBUG m i i' :
  call NDEBUG m i = OK i' ->
  (m_lock i' = m_lock i /\ m_uid i' = m_uid i /\
   m_atomDataSPs i' = m_atomDataSPs i /\
   m_displayLabels i' = m_displayLabels i /\
   m_hkl_dlower_and_dupper i' = m_hkl_dlower_and_dupper i) /\
  (m_structinfo i' = m_structinfo i \/ is_setStructInfo m = true) /\
  (m_atomlist i' = m_atomlist i \/ exists ai, m = Call_addAtom ai) /\
  (m_hkllist i' = m_hkllist i \/
   (exists hi, m = Call_addHKL hi) \/ (exists l, m = Call_setHKLList l)) /\
  (m_dyninfolist i' = m_dyninfolist i \/ exists di, m = Call_addDynInfo di) /\
  (m_density i' = m_density i \/ exists d, m = Call_setDensity d) /\
  (m_numberdensity i' = m_numberdensity i \/
   exists d, m = Call_setNumberDensity d) /\
  (m_xsect_free i' = m_xsect_free i \/ exists x, m = Call_setXSectFree x) /\
  (m_xsect_absorption i' = m_xsect_absorption i \/
   exists x, m = Call_setXSectAbsorption x) /\
  (m_temp i' = m_temp i \/ exists t, m = Call_setTemperature t) /\
  (m_xsectprovider i' = m_xsectprovider i \/
   exists xsp, m = Call_setXSectProvider xsp) /\
  (m_composition i' = m_composition i \/ exists c, m = Call_setComposition c) /\
  (m_custom i' = m_custom i \/ exists cd, m = Call_setCustomData cd).
Proof.
  intro H. destruct m; simpl in H; passed H; simpl;
    repeat split; try (left; reflexivity); try (right; reflexivity);
    try (right; eexists; reflexivity);
    try (right; left; eexists; reflexivity);
    try (right; right; eexists; reflexivity).
Qed.

(** X15. Each member of the object is changed by its own mutating members
    only: a call that goes through leaves the lock, the identifier, the
    tables and the reflection window alone, and leaves every list and every
    optional value alone unless it is the call that adds to or sets that very
    member. *)
Theorem each_call_changes_only_its_member (NDEBUG : bool) (m : MutatorCall)
  (i i' : Info) :
  call NDEBUG m i = OK i' ->
  (m_lock i' = m_lock i /\ m_uid i' = m_uid i /\
   m_atomDataSPs i' = m_atomDataSPs i /\
   m_displayLabels i' = m_displayLabels i /\
   m_hkl_dlower_and_dupper i' = m_hkl_dlower_and_dupper i) /\
  (m_structinfo i' = m_structinfo i \/ is_setStructInfo m = true) /\
  (m_atomlist i' = m_atomlist i \/ exists ai, m = Call_addAtom ai) /\
  (m_hkllist i' = m_hkllist i \/
   (exists hi, m = Call_addHKL hi) \/ (exists l, m = Call_setHKLList l)) /\
  (m_dyninfolist i' = m_dyninfolist i \/ exists di, m = Call_addDynInfo di) /\
  (m_density i' = m_density i \/ exists d, m = Call_setDensity d) /\
  (m_numberdensity i' = m_numberdensity i \/
   exists d, m = Call_setNumberDensity d) /\
  (m_xsect_free i' = m_xsect_free i \/ exists x, m = Call_setXSectFree x) /\
  (m_xsect_absorption i' = m_xsect_absorption i \/
   exists x, m = Call_setXSectAbsorption x) /\
  (m_temp i' = m_temp i \/ exists t, m = Call_setTemperature t) /\
  (m_xsectprovider i' = m_xsectprovider i \/
   exists xsp, m = Call_setXSectProvider xsp) /\
  (m_composition i' = m_composition i \/ exists c, m = Call_setComposition c) /\
  (m_custom i' = m_custom i \/ exists cd, m = Call_setCustomData cd).
Proof. apply call_frame. Qed.

Lemma each_call_changes_only_its_member_witness :
  call false (Call_setDensity 2.5) Samples.building
    = OK (set_m_density (Some 2.5%float) Samples.building) /\
  m_hkllist (set_m_density (Some 2.5%float) Samples.building)
    = m_hkllist Samples.building.
Proof.
  assert (H : call false (Call_setDensity 2.5) Samples.building
              = OK (set_m_density (Some 2.5%float) Samples.building))
    by reflexivity.
  split; [exact H|].
  destruct (@each_call_changes_only_its_member false _ _ _ H)
    as (_ & _ & _ & [A|[[hi A]|[l A]]] & _);
    [exact A | discriminate A | discriminate A].
Defined.

Lemma apply_calls_ind_inv (P : Info -> Prop) NDEBUG :
  (forall m i i', call NDEBUG m i = OK i' -> P i -> P i') ->
  forall ms i i', apply_calls NDEBUG ms i = OK i' -> P i -> P i'.
Proof.
  intros Step ms. induction ms as [|m ms IH]; simpl; intros i i' H Pi.
  - now injection H as <-.
  - destruct (call NDEBUG m i) as [i1|] eqn:E; simpl in H; [|discriminate].
    eapply IH; eauto.
Qed.

(** X3. No sequence of calls of the thirteen mutating members locks or unlocks
    the object, or changes its identifier, the table of atom data, the display
    labels or the window of the reflection information: [isLocked] and
    [hasHKLInfo] answer after the script what they answered before. *)
Theorem script_keeps_lock_and_tables (NDEBUG : bool) (ms : list MutatorCall)
  (i i' : Info) :
  apply_calls NDEBUG ms i = OK i' ->
  isLocked i' = isLocked i /\
  m_uid i' = m_uid i /\
  m_atomDataSPs i' = m_atomDataSPs i /\
  m_displayLabels i' = m_displayLabels i /\
  m_hkl_dlower_and_dupper i' = m_hkl_dlower_and_dupper i /\
  hasHKLInfo i' = hasHKLInfo i.
Proof.
  intro H.
  assert (K : m_lock i' = m_lock i /\ m_uid i' = m_uid i /\
              m_atomDataSPs i' = m_atomDataSPs i /\
              m_displayLabels i' = m_displayLabels i /\
              m_hkl_dlower_and_dupper i' = m_hkl_dlower_and_dupper i).
  { refine (@apply_calls_ind_inv
              (fun j => m_lock j = m_lock i /\ m_uid j = m_uid i /\
                        m_atomDataSPs j = m_atomDataSPs i /\
                        m_displayLabels j = m_displayLabels i /\
                        m_hkl_dlower_and_dupper j = m_hkl_dlower_and_dupper i)
              NDEBUG _ ms i i' H _).
    - intros m j j' C (A1 & A2 & A3 & A4 & A5).
      destruct (call_frame _ _ _ C) as ((B1 & B2 & B3 & B4 & B5) & _).
      repeat split; congruence.
    - repeat split. }
  destruct K as (K1 & K2 & K3 & K4 & K5).
  unfold isLocked, hasHKLInfo. rewrite K5. repeat split; assumption.
Qed.

(** X4. Structure information is set once: on an object that has it,
    [setStructInfo] throws a [LogicError] in every build (its assertion is not
    compiled out), a script that runs to its end contains no [setStructInfo],
    and after any such script the structure information is the one that was
    there. *)
Theorem structure_info_is_set_once (NDEBUG : bool) (i : Info)
  (si : StructureInfo) :
  m_structinfo i = Some si ->
  (forall si', is_LogicError (setStructInfo si' i)) /\
  (forall ms i', apply_calls NDEBUG ms i = OK i' ->
     m_structinfo i' = Some si /\
     Forall (fun m => is_setStructInfo m = false) ms /\
     forall NDEBUG', getStructureInfo NDEBUG' i' = OK si).
Proof.
  intro S. split.
  - intro si'. unfold setStructInfo, ensureNoLock, is_LogicError.
    destruct (m_lock i); simpl; [eexists; reflexivity|].
    rewrite S. simpl. eexists. reflexivity.
  - intros ms. revert i S. induction ms as [|m ms IH]; simpl; intros i S i' H.
    + injection H as <-. split; [exact S|]. split; [constructor|].
      intro N. unfold getStructureInfo, hasStructureInfo. rewrite S. simpl.
      now rewrite nc_assert_ok.
    + destruct (call NDEBUG m i) as [i1|] eqn:E; simpl in H; [|discriminate].
      assert (M : is_setStructInfo m = false).
      { destruct m; try reflexivity. simpl in E.
        unfold setStructInfo, ensureNoLock in E.
        destruct (m_lock i); simpl in E; [discriminate|].
        rewrite S in E. discriminate E. }
      assert (S1 : m_structinfo i1 = Some si).
      { destruct (call_frame _ _ _ E) as (_ & [F|F] & _); congruence. }
      destruct (IH i1 S1 i' H) as (A & B & C).
      split; [exact A|]. split; [now constructor | exact C].
Qed.

Lemma call_presence NDEBUG m i i' :
  call NDEBUG m i = OK i' ->
  (hasStructureInfo i = true -> hasStructureInfo i' = true) /\
  (hasTemperature i = true -> hasTemperature i' = true) /\
  (hasDensity i = true -> hasDensity i' = true) /\
  (hasNumberDensity i = true -> hasNumberDensity i' = true) /\
  (hasXSectFree i = true -> hasXSectFree i' = true) /\
  (hasXSectAbsorption i = true -> hasXSectAbsorption i' = true) /\
  (hasAtomInfo i = true -> hasAtomInfo i' = true) /\
  (hasDynamicInfo i = true -> hasDynamicInfo i' = true) /\
  (hasHKLInfo i = true -> hasHKLInfo i' = true) /\
  (NDEBUG = false ->
   providesNonBraggXSects i = true -> providesNonBraggXSects i' = true).
Proof.
  intro H. destruct m; simpl in H; passed H;
    unfold hasStructureInfo, hasTemperature, hasDensity, hasNumberDensity,
      hasXSectFree, hasXSectAbsorption, hasAtomInfo, hasDynamicInfo,
      hasHKLInfo, providesNonBraggXSects; simpl;
    repeat split; auto;
    try (destruct (m_atomlist i); simpl; [discriminate | reflexivity]);
    try (destruct (m_dyninfolist i); simpl; [discriminate | reflexivity]).
  intros N _. subst NDEBUG.
  match goal with
  | C : nc_assert false _ _ = OK tt |- _ =>
      apply nc_assert_passed in C; destruct C as [C|C]; [discriminate C | exact C]
  end.
Qed.

(** X5. What the thirteen mutating members cannot take away: after a script
    that ran to its end, structure information, temperature, density, number
    density, both cross sections, atom information, dynamic information and
    reflection information are present if they were before, and a crystalline
    object is still crystalline; so is the cross-section provider in a build
    with assertions. *)
Theorem presence_is_never_lost (NDEBUG : bool) (ms : list MutatorCall)
  (i i' : Info) :
  apply_calls NDEBUG ms i = OK i' ->
  (hasStructureInfo i = true -> hasStructureInfo i' = true) /\
  (hasTemperature i = true -> hasTemperature i' = true) /\
  (hasDensity i = true -> hasDensity i' = true) /\
  (hasNumberDensity i = true -> hasNumberDensity i' = true) /\
  (hasXSectFree i = true -> hasXSectFree i' = true) /\
  (hasXSectAbsorption i = true -> hasXSectAbsorption i' = true) /\
  (hasAtomInfo i = true -> hasAtomInfo i' = true) /\
  (hasDynamicInfo i = true -> hasDynamicInfo i' = true) /\
  (hasHKLInfo i = true -> hasHKLInfo i' = true) /\
  (NDEBUG = false ->
   providesNonBraggXSects i = true -> providesNonBraggXSects i' = true) /\
  (isCrystalline i = true -> isCrystalline i' = true).
Proof.
  intro H.
  assert (K :
    (hasStructureInfo i = true -> hasStructureInfo i' = true) /\
    (hasTemperature i = true -> hasTemperature i' = true) /\
    (hasDensity i = true -> hasDensity i' = true) /\
    (hasNumberDensity i = true -> hasNumberDensity i' = true) /\
    (hasXSectFree i = true -> hasXSectFree i' = true) /\
    (hasXSectAbsorption i = true -> hasXSectAbsorption i' = true) /\
    (hasAtomInfo i = true -> hasAtomInfo i' = true) /\
    (hasDynamicInfo i = true -> hasDynamicInfo i' = true) /\
    (hasHKLInfo i = true -> hasHKLInfo i' = true) /\
    (NDEBUG = false ->
     providesNonBraggXSects i = true -> providesNonBraggXSects i' = true)).
  { revert i H. induction ms as [|m ms IH]; simpl; intros i H.
    - injection H as <-. repeat split; auto.
    - destruct (call NDEBUG m i) as [i1|] eqn:E; simpl in H; [|discriminate].
      specialize (IH i1 H). apply call_presence in E.
      destruct IH as (A1 & A2 & A3 & A4 & A5 & A6 & A7 & A8 & A9 & A10).
      destruct E as (B1 & B2 & B3 & B4 & B5 & B6 & B7 & B8 & B9 & B10).
      repeat split; auto. }
  destruct K as (A1 & A2 & A3 & A4 & A5 & A6 & A7 & A8 & A9 & A10).
  repeat split; auto.
  unfold isCrystalline, hasAtomPositions. rewrite !orb_true_iff.
  intros [[S|A]|K]; auto.
Qed.

(** What a script can take away again: the composition, the reflections, and,
    in a build without assertions, the cross-section provider. *)
Example presence_that_can_be_lost :
  let i := Samples.built
             (i1 <- setComposition [mkCompositionEntry 1.0 Samples.Al]
                      Samples.building ;;
              setXSectProvider true (Some (fun e => e)) i1) in
  hasComposition i = true /\ providesNonBraggXSects i = true /\
  hkl_empty i = false /\
  exists i',
    apply_calls true
      [Call_setComposition []; Call_setXSectProvider None; Call_setHKLList []]
      i = OK i' /\
    hasComposition i' = false /\ providesNonBraggXSects i' = false /\
    hkl_empty i' = true.
Proof.
  cbv zeta. repeat split. eexists. repeat split.
Qed.

Lemma nth_error_last {A : Type} (xs : list A) (d : A) :
  xs <> [] -> nth_error xs (Nat.pred (length xs)) = Some (last xs d).
Proof.
  induction xs as [|x xs IH]; [congruence|]. intros _.
  destruct xs as [|y xs]; [reflexivity|].
  change (nth_error (y :: xs) (Nat.pred (length (y :: xs)))
          = Some (last (y :: xs) d)).
  apply IH. discriminate.
Qed.

(** X6. The iteration handles of the reflection list: [hklBegin <= hklLast
    <= hklEnd]; [hklLast] (and [hklBegin]) equals [hklEnd] exactly when the
    list is empty; nothing stands at [hklEnd]; on a list that is not empty
    [hklLast] is the position before [hklEnd] and holds the last reflection;
    and [nHKL], an [unsigned], is the distance from [hklBegin] to [hklEnd] as
    long as that is below 2^32. *)
Theorem hkl_iteration_handles (i : Info) :
  hklBegin i <= hklLast i <= hklEnd i /\
  (hklLast i = hklEnd i <-> hklList i = []) /\
  (hklBegin i = hklEnd i <-> hklList i = []) /\
  nth_error (hklList i) (hklEnd i) = None /\
  (hklList i <> [] ->
   hklEnd i = S (hklLast i) /\
   forall d, nth_error (hklList i) (hklLast i) = Some (last (hklList i) d)) /\
  ((N.of_nat (hklEnd i) < UINT_MOD)%N ->
   nHKL i = N.of_nat (hklEnd i - hklBegin i)).
Proof.
  unfold hklBegin, hklLast, hklEnd, hklList, hkl_empty, nHKL, to_unsigned.
  destruct (m_hkllist i) as [|r rest] eqn:E.
  - simpl. split; [lia|].
    split; [tauto|]. split; [tauto|]. split; [reflexivity|].
    split; [intro F; now elim F | intros _; reflexivity].
  - split; [simpl; lia|].
    split; [split; [simpl; lia | discriminate]|].
    split; [split; [simpl; lia | discriminate]|].
    split; [apply nth_error_None; lia|].
    split.
    + intros _. split; [reflexivity|].
      intro d. apply (@nth_error_last _ (r :: rest) d). discriminate.
    + intro L. rewrite Nat.sub_0_r. now apply N.mod_small.
Qed.

Lemma nth_error_app_last {A : Type} (xs : list A) (x : A) :
  nth_error (xs ++ [x]) (length xs) = Some x.
Proof. induction xs as [|y xs IH]; simpl; auto. Qed.

Lemma nth_error_app_old {A : Type} (xs ys : list A) n r :
  nth_error xs n = Some r -> nth_error (xs ++ ys) n = Some r.
Proof.
  revert n; induction xs as [|y xs IH]; intros [|n] H; simpl in *;
    try discriminate; auto.
Qed.

Lemma app_one_not_nil {A : Type} (xs : list A) (x : A) : xs ++ [x] <> [].
Proof. destruct xs; discriminate. Qed.

(** X7. [addHKL], [addAtom] and [addDynInfo] append: after a call that went
    through the list is the old one followed by the new entry, every old entry
    is at its old position, the end has moved by one, and the new entry is the
    one at the old end (for reflections: the one [hklLast] points to).  After
    [addAtom] the object has atom information and is crystalline, after
    [addDynInfo] it has dynamic information. *)
Theorem add_appends_at_the_end (NDEBUG : bool) (i i' : Info) :
  (forall hi, addHKL hi i = OK i' ->
     hklList i' = hklList i ++ [hi] /\
     hklBegin i' = hklBegin i /\
     hklLast i' = hklEnd i /\
     hklEnd i' = S (hklEnd i) /\
     nth_error (hklList i') (hklLast i') = Some hi /\
     forall n r, nth_error (hklList i) n = Some r ->
                 nth_error (hklList i') n = Some r) /\
  (forall ai, addAtom ai i = OK i' ->
     getAtomInfos i' = getAtomInfos i ++ [ai] /\
     atomInfoBegin i' = atomInfoBegin i /\
     atomInfoEnd i' = S (atomInfoEnd i) /\
     nth_error (getAtomInfos i') (atomInfoEnd i) = Some ai /\
     hasAtomInfo i' = true /\ isCrystalline i' = true) /\
  (forall di, addDynInfo NDEBUG di i = OK i' ->
     getDynamicInfoList i' = getDynamicInfoList i ++ [di] /\
     nth_error (getDynamicInfoList i') (length (getDynamicInfoList i))
       = Some di /\
     hasDynamicInfo i' = true).
Proof.
  split; [|split].
  - intros hi H. passed H.
    unfold hklList, hklBegin, hklLast, hklEnd, hkl_empty. simpl.
    assert (N : match m_hkllist i ++ [hi] with [] => true | _ :: _ => false end
                = false) by (destruct (m_hkllist i); reflexivity).
    rewrite N, length_app, Nat.add_1_r. simpl.
    repeat split; auto.
    + apply nth_error_app_last.
    + intros n r. apply nth_error_app_old.
  - intros ai H. passed H.
    unfold getAtomInfos, atomInfoBegin, atomInfoEnd, isCrystalline,
      hasAtomPositions, hasAtomInfo. simpl.
    repeat split.
    + rewrite length_app. simpl. lia.
    + apply nth_error_app_last.
    + destruct (m_atomlist i); reflexivity.
    + destruct (m_atomlist i); simpl; now rewrite orb_true_r.
  - intros di H. passed H.
    unfold getDynamicInfoList, hasDynamicInfo. simpl.
    repeat split.
    + apply nth_error_app_last.
    + destruct (m_dyninfolist i); reflexivity.
Qed.

(** X8. [hasHKLDemiNormals] and [hasExpandedHKLInfo] are true exactly when
    reflection information is enabled, the reflection list is not empty and
    its first entry has demi-normals (an [eqv_hkl] array).  Reflections in an
    object whose reflection information is not enabled do not count, nor does
    any entry but the first. *)
Theorem expanded_hkl_tests (i : Info) :
  (hasHKLDemiNormals i = true <->
   hasHKLInfo i = true /\
   exists r rest, hklList i = r :: rest /\ demi_normals r <> []) /\
  (hasExpandedHKLInfo i = true <->
   hasHKLInfo i = true /\
   exists r rest, hklList i = r :: rest /\ eqv_hkl r <> None).
Proof.
  unfold hasHKLDemiNormals, hasExpandedHKLInfo, hkl_empty, hklList.
  destruct (hasHKLInfo i); simpl;
    destruct (m_hkllist i) as [|r rest]; simpl; split; split;
    try discriminate;
    try (intros (F & _); discriminate F);
    try (intros (_ & r' & rest' & F & _); discriminate F).
  - intro H. split; [reflexivity|]. exists r, rest. split; [reflexivity|].
    destruct (demi_normals r); [discriminate H | discriminate].
  - intros (_ & r' & rest' & E & D). injection E as <- <-.
    destruct (demi_normals r); [now elim D | reflexivity].
  - intro H. split; [reflexivity|]. exists r, rest. split; [reflexivity|].
    destruct (eqv_hkl r); [discriminate | discriminate H].
  - intros (_ & r' & rest' & E & D). injection E as <- <-.
    destruct (eqv_hkl r); [reflexivity | now elim D].
Qed.

(** X9. Entries added later do not change the answers that are read off the
    first entry: once the atom list is not empty, [addAtom] leaves
    [hasAtomMSD] and [hasAtomDebyeTemp] as they are, and the first atom added
    decides them; likewise [addHKL] leaves [hasHKLDemiNormals] and
    [hasExpandedHKLInfo] as they are once there is a reflection, and the first
    reflection added decides them (when reflection information is
    enabled). *)
Theorem first_entry_decides (i i' : Info) :
  (forall ai, addAtom ai i = OK i' ->
     (hasAtomInfo i = true ->
      hasAtomMSD i' = hasAtomMSD i /\
      hasAtomDebyeTemp i' = hasAtomDebyeTemp i) /\
     (hasAtomInfo i = false ->
      hasAtomMSD i' = has_value (msd ai) /\
      hasAtomDebyeTemp i' = has_value (debyeTemp ai))) /\
  (forall hi, addHKL hi i = OK i' ->
     (hklList i <> [] ->
      hasHKLDemiNormals i' = hasHKLDemiNormals i /\
      hasExpandedHKLInfo i' = hasExpandedHKLInfo i) /\
     (hklList i = [] -> hasHKLInfo i = true ->
      (hasHKLDemiNormals i' = true <-> demi_normals hi <> []) /\
      (hasExpandedHKLInfo i' = true <-> eqv_hkl hi <> None))).
Proof.
  split.
  - intros ai H. passed H.
    unfold hasAtomMSD, hasAtomDebyeTemp, hasAtomInfo. simpl.
    destruct (m_atomlist i); simpl; split; intro F; try discriminate F;
      split; reflexivity.
  - intros hi H. passed H.
    unfold hasHKLDemiNormals, hasExpandedHKLInfo, hasHKLInfo, hkl_empty,
      hklList. simpl.
    destruct (m_hkllist i); simpl; split.
    + intro F. now elim F.
    + intros _ ->. simpl. split.
      * destruct (demi_normals hi); simpl; split; congruence.
      * destruct (eqv_hkl hi); simpl; split; congruence.
    + intros _. split; reflexivity.
    + intro F. discriminate F.
Qed.

Lemma IndexedAtomData_lt_cases NDEBUG a o :
  IndexedAtomData_lt NDEBUG a o =
  if NDEBUG || same_instance_or_other_index a o
  then OK (index a <? index o)%N
  else Throw (LogicError sanity_msg).
Proof.
  unfold IndexedAtomData_lt, nc_assert, nc_assert_always, iad_lt.
  destruct NDEBUG; simpl; [reflexivity|].
  destruct (same_instance_or_other_index a o); reflexivity.
Qed.

Lemma IndexedAtomData_eq_cases NDEBUG a o :
  IndexedAtomData_eq NDEBUG a o =
  if NDEBUG || same_instance_or_other_index a o
  then OK (index a =? index o)%N
  else Throw (LogicError sanity_msg).
Proof.
  unfold IndexedAtomData_eq, nc_assert, nc_assert_always, iad_eq.
  destruct NDEBUG; simpl; [reflexivity|].
  destruct (same_instance_or_other_index a o); reflexivity.
Qed.

Lemma sanity_sym a o :
  same_instance_or_other_index a o = same_instance_or_other_index o a.
Proof.
  unfold same_instance_or_other_index.
  now rewrite (N.eqb_sym (ad_ptr (atomDataSP a))), (N.eqb_sym (index a)).
Qed.

Lemma sanity_other_index a o :
  index a <> index o -> same_instance_or_other_index a o = true.
Proof.
  intro H. unfold same_instance_or_other_index.
  apply N.eqb_neq in H. rewrite H. simpl. apply orb_true_r.
Qed.

Lemma sanity_false a o :
  same_instance_or_other_index a o = false <->
  index a = index o /\ ad_ptr (atomDataSP a) <> ad_ptr (atomDataSP o).
Proof.
  unfold same_instance_or_other_index.
  rewrite orb_false_iff, negb_false_iff, N.eqb_eq, N.eqb_neq. tauto.
Qed.

(** X10. [operator<] and [operator==] of [IndexedAtomData].  For a pair the
    comparisons pass or throw together and in both directions; when they
    pass, exactly one of [a < o], [a == o], [o < a] is true; [<] is
    irreflexive and transitive.  In a build with assertions [==] is true only
    for one and the same instance, and the comparison throws a [LogicError]
    exactly when one index stands for two instances; in a build without, the
    index alone decides. *)
Theorem IndexedAtomData_order (NDEBUG : bool) (a o c : IndexedAtomData) :
  ((exists x, IndexedAtomData_lt NDEBUG a o = OK x) <->
   (exists y, IndexedAtomData_eq NDEBUG a o = OK y)) /\
  ((exists x, IndexedAtomData_lt NDEBUG a o = OK x) <->
   (exists z, IndexedAtomData_lt NDEBUG o a = OK z)) /\
  (forall x y z,
     IndexedAtomData_lt NDEBUG a o = OK x ->
     IndexedAtomData_eq NDEBUG a o = OK y ->
     IndexedAtomData_lt NDEBUG o a = OK z ->
     (x = true /\ y = false /\ z = false) \/
     (x = false /\ y = true /\ z = false) \/
     (x = false /\ y = false /\ z = true)) /\
  IndexedAtomData_lt NDEBUG a a = OK false /\
  (IndexedAtomData_lt NDEBUG a o = OK true ->
   IndexedAtomData_lt NDEBUG o c = OK true ->
   IndexedAtomData_lt NDEBUG a c = OK true) /\
  (IndexedAtomData_eq false a o = OK true ->
   ad_ptr (atomDataSP a) = ad_ptr (atomDataSP o)) /\
  (is_LogicError (IndexedAtomData_eq false a o) <->
   index a = index o /\ ad_ptr (atomDataSP a) <> ad_ptr (atomDataSP o)) /\
  IndexedAtomData_eq true a o = OK (index a =? index o)%N /\
  IndexedAtomData_lt true a o = OK (index a <? index o)%N.
Proof.
  rewrite !IndexedAtomData_lt_cases, !IndexedAtomData_eq_cases.
  rewrite (sanity_sym o a).
  split; [|split; [|split; [|split; [|split; [|split; [|split; [|split]]]]]]].
  - destruct (NDEBUG || same_instance_or_other_index a o);
      split; intros [x H]; try discriminate H; eexists; reflexivity.
  - destruct (NDEBUG || same_instance_or_other_index a o);
      split; intros [x H]; try discriminate H; eexists; reflexivity.
  - intros x y z.
    destruct (NDEBUG || same_instance_or_other_index a o);
      [|discriminate].
    intros X Y Z. injection X as <-. injection Y as <-. injection Z as <-.
    destruct (N.ltb_spec (index a) (index o)),
      (N.eqb_spec (index a) (index o)),
      (N.ltb_spec (index o) (index a)); try lia; tauto.
  - assert (S : same_instance_or_other_index a a = true)
      by (unfold same_instance_or_other_index; now rewrite N.eqb_refl).
    now rewrite S, orb_true_r, N.ltb_irrefl.
  - destruct (NDEBUG || same_instance_or_other_index a o); [|discriminate].
    destruct (NDEBUG || same_instance_or_other_index o c); [|discriminate].
    intros X Y. injection X as X. injection Y as Y.
    apply N.ltb_lt in X, Y.
    rewrite (@sanity_other_index a c) by lia.
    rewrite orb_true_r. f_equal. apply N.ltb_lt. lia.
  - simpl. destruct (same_instance_or_other_index a o) eqn:S; [|discriminate].
    intro E. injection E as E. apply N.eqb_eq in E.
    unfold same_instance_or_other_index in S.
    apply N.eqb_eq in E. rewrite E in S. simpl in S.
    rewrite orb_false_r in S. now apply N.eqb_eq.
  - simpl. rewrite <- sanity_false. unfold is_LogicError.
    destruct (same_instance_or_other_index a o); split.
    + intros [m F]. discriminate F.
    + discriminate.
    + reflexivity.
    + intros _. eexists. reflexivity.
  - reflexivity.
  - reflexivity.
Qed.

(** X11. The lookups by atom index.  For an index within the table,
    [atomDataSP(ai)] and [atomData(ai)] give the entry and
    [indexedAtomData(ai)] gives the entry paired with [ai], and
    [displayLabel(ai)] gives the label.  For an
    index beyond the table a build with assertions throws a [LogicError];
    what a build without assertions does there is not defined by the code,
    and nothing is stated of it.  In a build with assertions whatever
    [indexedAtomData(ai)] returns has index [ai] and the atom data that
    [atomDataSP(ai)] returns. *)
Theorem atom_index_lookups (NDEBUG : bool) (ai : AtomIndex) (i : Info) :
  (forall sp, nth_error (m_atomDataSPs i) (N.to_nat ai) = Some sp ->
     Info_atomDataSP NDEBUG ai i = OK sp /\
     Info_atomData NDEBUG ai i = OK sp /\
     Info_indexedAtomData NDEBUG ai i = OK (mkIndexedAtomData sp ai)) /\
  (forall iad, Info_indexedAtomData false ai i = OK iad ->
     index iad = ai /\ Info_atomDataSP false ai i = OK (atomDataSP iad)) /\
  (forall s, nth_error (m_displayLabels i) (N.to_nat ai) = Some s ->
     displayLabel NDEBUG ai i = OK s) /\
  ((N.of_nat (length (m_atomDataSPs i)) <= ai)%N ->
     is_LogicError (Info_atomDataSP false ai i) /\
     is_LogicError (Info_atomData false ai i) /\
     is_LogicError (Info_indexedAtomData false ai i)) /\
  ((N.of_nat (length (m_displayLabels i)) <= ai)%N ->
     is_LogicError (displayLabel false ai i)).
Proof.
  assert (R : forall (A : Type) (v : list A) x,
             nth_error v (N.to_nat ai) = Some x -> in_range ai v = true).
  { intros A v x H. unfold in_range. apply N.ltb_lt.
    assert (N.to_nat ai < length v)
      by (apply nth_error_Some; congruence). lia. }
  assert (O : forall (A : Type) (v : list A),
             (N.of_nat (length v) <= ai)%N ->
             in_range ai v = false /\ nth_error v (N.to_nat ai) = None).
  { intros A v H. split; [apply N.ltb_ge; exact H|].
    apply nth_error_None. lia. }
  unfold Info_atomDataSP, Info_atomData, Info_indexedAtomData, displayLabel,
    at_index.
  split; [|split; [|split; [|split]]].
  - intros sp H. rewrite (R _ _ _ H), nc_assert_ok, H. simpl. auto.
  - intros iad H.
    destruct (nc_assert false (in_range ai (m_atomDataSPs i)) _) as [[]|];
      simpl in *; [|discriminate].
    destruct (nth_error (m_atomDataSPs i) (N.to_nat ai)); simpl in *;
      [|discriminate].
    injection H as <-. auto.
  - intros s H. rewrite (R _ _ _ H), nc_assert_ok, H. reflexivity.
  - intro H. destruct (O _ _ H) as [F N]. rewrite F, N.
    unfold nc_assert, nc_assert_always, is_LogicError. simpl.
    repeat split; eexists; reflexivity.
  - intro H. destruct (O _ _ H) as [F N]. rewrite F, N.
    unfold nc_assert, nc_assert_always, is_LogicError. simpl.
    eexists; reflexivity.
Qed.

Lemma not_positive dt :
  isnan dt = true \/ PrimFloat.leb dt 0 = true -> PrimFloat.ltb 0 dt = false.
Proof.
  rewrite ltb_spec, leb_spec. unfold isnan. rewrite eqb_spec.
  change (Prim2SF 0) with (S754_zero false).
  intros [H|H].
  - apply negb_true_iff in H.
    assert (N : ~ ordered (Prim2SF dt)).
    { intro O. apply DoubleFacts.SFeqb_refl_ordered in O. congruence. }
    destruct (Prim2SF dt); try (exfalso; apply N; discriminate).
    reflexivity.
  - destruct (Prim2SF dt) as [s|s| |s m e]; simpl in *;
      try destruct s; try reflexivity; discriminate H.
Qed.

(** X12. The constructor of [DI_VDOSDebye].  In a build with assertions it
    goes through exactly when the Debye temperature is greater than zero: a
    zero, a negative value or a NaN is refused with a [LogicError].  A build
    without assertions accepts any value.  The object constructed reports the
    Debye temperature given and keeps fraction, atom, temperature and
    back-reference of its base part. *)
Theorem DI_VDOSDebye_needs_positive (NDEBUG : bool) (base : DynamicInfo)
  (dt : double) :
  (forall d, DI_VDOSDebye_ctor NDEBUG base dt = OK d ->
     debyeTemperature d = Some dt /\
     fraction d = fraction base /\
     m_atom d = m_atom base /\
     m_temperature d = m_temperature base /\
     correspondingAtomInfo d = correspondingAtomInfo base /\
     (NDEBUG = false -> PrimFloat.ltb 0 dt = true)) /\
  ((exists d, DI_VDOSDebye_ctor false base dt = OK d) <->
   PrimFloat.ltb 0 dt = true) /\
  (isnan dt = true \/ PrimFloat.leb dt 0 = true ->
   is_LogicError (DI_VDOSDebye_ctor false base dt)) /\
  (exists d, DI_VDOSDebye_ctor true base dt = OK d).
Proof.
  unfold DI_VDOSDebye_ctor, nc_assert, nc_assert_always, is_LogicError.
  split; [|split; [|split]].
  - intros d H. destruct NDEBUG; simpl in H.
    + injection H as <-. repeat split. discriminate.
    + destruct (PrimFloat.ltb 0 dt); simpl in H; [|discriminate].
      injection H as <-. repeat split.
  - simpl. destruct (PrimFloat.ltb 0 dt); simpl; split.
    + reflexivity.
    + intros _. eexists. reflexivity.
    + intros [d F]. discriminate F.
    + discriminate.
  - intro H. apply not_positive in H. rewrite H. simpl. eexists. reflexivity.
  - simpl. eexists. reflexivity.
Qed.

(** X13. Null arguments.  In a build with assertions [setXSectProvider] with
    an empty function and [addDynInfo] with a null pointer never go through.
    In a build without, a call that goes through stores them: the object then
    provides no non-Bragg cross sections any more (asking for one is an
    assertion failure), and the list of dynamic information ends in a null
    pointer while [hasDynamicInfo] is true. *)
Theorem null_arguments (i i' : Info) :
  (forall j, setXSectProvider false None i <> OK j) /\
  (forall j, addDynInfo false None i <> OK j) /\
  (setXSectProvider true None i = OK i' ->
     providesNonBraggXSects i' = false /\
     forall ekin, is_LogicError (xsectScatNonBragg false ekin i')) /\
  (addDynInfo true None i = OK i' ->
     hasDynamicInfo i' = true /\
     nth_error (getDynamicInfoList i') (length (getDynamicInfoList i))
       = Some None).
Proof.
  unfold setXSectProvider, addDynInfo, nc_assert, nc_assert_always.
  destruct (ensureNoLock i) as [[]|e]; simpl;
    repeat split; try discriminate;
    try (intro H; discriminate H).
  - injection H as <-. reflexivity.
  - injection H as <-. intro ekin. unfold xsectScatNonBragg, is_LogicError.
    simpl. eexists. reflexivity.
  - injection H as <-. unfold hasDynamicInfo. simpl.
    destruct (m_dyninfolist i); reflexivity.
  - injection H as <-. unfold getDynamicInfoList. simpl.
    apply nth_error_app_last.
Qed.

Lemma ensureNoLock_cases i :
  ensureNoLock i =
  if m_lock i then Throw (LogicError "Modification of a locked Info object")
  else OK tt.
Proof. reflexivity. Qed.

(** X14. When a call of a mutating member goes through: exactly when the
    object is not locked, the call is not a [setStructInfo] on an object that
    has structure information, and, in a build with assertions, it passes no
    null argument.  A call that does not go through throws a [LogicError]. *)
Theorem call_succeeds_exactly_when (NDEBUG : bool) (m : MutatorCall)
  (i : Info) :
  ((exists i', call NDEBUG m i = OK i') <->
   isLocked i = false /\
   (is_setStructInfo m = true -> hasStructureInfo i = false) /\
   (NDEBUG = false -> null_argument m = false)) /\
  ((exists i', call NDEBUG m i = OK i') \/ is_LogicError (call NDEBUG m i)).
Proof.
  unfold isLocked, hasStructureInfo, is_LogicError.
  destruct m as [ai|hi|l|si|x|x|t|d|d|xsp|di|c|cd]; simpl;
    unfold addAtom, addHKL, setHKLList, setStructInfo, setXSectFree,
      setXSectAbsorption, setTemperature, setDensity, setNumberDensity,
      setXSectProvider, addDynInfo, setComposition, setCustomData,
      nc_assert, nc_assert_always;
    rewrite ensureNoLock_cases;
    destruct (m_lock i); simpl;
    try destruct (m_structinfo i); try destruct NDEBUG;
    try destruct xsp; try destruct di; simpl;
    (split; [split; [intros [j H]; try discriminate H; repeat split;
                       try reflexivity; try discriminate; auto
                    | intros (A & B & C); try discriminate A;
                      try (specialize (B eq_refl); discriminate B);
                      try (specialize (C eq_refl); discriminate C);
                      eexists; reflexivity]
            | first [ left; eexists; reflexivity
                    | right; eexists; reflexivity ] ]).
Qed.

Lemma setters_then_accessors_witness :
  setDensity 2.5 Samples.building
    = OK (set_m_density (Some 2.5%float) Samples.building) /\
  getDensity false (set_m_density (Some 2.5%float) Samples.building)
    = OK 2.5%float.
Proof.
  assert (H : setDensity 2.5 Samples.building
              = OK (set_m_density (Some 2.5%float) Samples.building))
    by reflexivity.
  split; [exact H|].
  destruct (setters_then_accessors true false Samples.building
              (set_m_density (Some 2.5%float) Samples.building))
    as (_ & _ & _ & _ & D & _).
  exact (proj2 (D _ H)).
Defined.

Lemma script_keeps_lock_and_tables_witness :
  apply_calls false MoreSamples.script Samples.building
    = OK MoreSamples.scripted /\
  isLocked MoreSamples.scripted = isLocked Samples.building /\
  hasHKLInfo MoreSamples.scripted = hasHKLInfo Samples.building.
Proof.
  assert (H : apply_calls false MoreSamples.script Samples.building
              = OK MoreSamples.scripted) by (vm_compute; reflexivity).
  split; [exact H|].
  pose proof (@script_keeps_lock_and_tables false _ _ _ H) as T.
  split; apply T.
Defined.

Lemma structure_info_is_set_once_witness :
  m_structinfo MoreSamples.scripted
    = Some (mkStructureInfo 225 4.0 4.0 4.0 90.0 90.0 90.0 64.0 4) /\
  is_LogicError
    (setStructInfo (mkStructureInfo 1 1.0 2.0 3.0 90.0 90.0 90.0 6.0 1)
       MoreSamples.scripted).
Proof.
  assert (H : m_structinfo MoreSamples.scripted
              = Some (mkStructureInfo 225 4.0 4.0 4.0 90.0 90.0 90.0 64.0 4))
    by (vm_compute; reflexivity).
  split; [exact H|].
  apply (@structure_info_is_set_once false _ _ H).
Defined.

Lemma presence_is_never_lost_witness :
  apply_calls false MoreSamples.script Samples.building
    = OK MoreSamples.scripted /\
  hasAtomInfo Samples.building = true /\
  hasAtomInfo MoreSamples.scripted = true /\
  isCrystalline MoreSamples.scripted = true.
Proof.
  assert (H : apply_calls false MoreSamples.script Samples.building
              = OK MoreSamples.scripted) by (vm_compute; reflexivity).
  split; [exact H|].
  pose proof (@presence_is_never_lost false _ _ _ H) as T.
  split; [reflexivity|]. split; apply T; reflexivity.
Defined.

Lemma add_appends_at_the_end_witness :
  addHKL Samples.hkl_odd Samples.building
    = OK (set_m_hkllist (m_hkllist Samples.building ++ [Samples.hkl_odd])
            Samples.building) /\
  hklLast (set_m_hkllist (m_hkllist Samples.building ++ [Samples.hkl_odd])
             Samples.building) = hklEnd Samples.building.
Proof.
  assert (H : addHKL Samples.hkl_odd Samples.building
              = OK (set_m_hkllist
                      (m_hkllist Samples.building ++ [Samples.hkl_odd])
                      Samples.building)) by reflexivity.
  split; [exact H|].
  destruct (add_appends_at_the_end false Samples.building
              (set_m_hkllist (m_hkllist Samples.building ++ [Samples.hkl_odd])
                 Samples.building)) as (A & _).
  apply (A _ H).
Defined.

Lemma first_entry_decides_witness :
  addAtom Samples.atom_O_plain Samples.building
    = OK (set_m_atomlist (m_atomlist Samples.building ++ [Samples.atom_O_plain])
            Samples.building) /\
  hasAtomInfo Samples.building = true /\
  hasAtomMSD (set_m_atomlist
                (m_atomlist Samples.building ++ [Samples.atom_O_plain])
                Samples.building) = hasAtomMSD Samples.building.
Proof.
  assert (H : addAtom Samples.atom_O_plain Samples.building
              = OK (set_m_atomlist
                      (m_atomlist Samples.building ++ [Samples.atom_O_plain])
                      Samples.building)) by reflexivity.
  split; [exact H|]. split; [reflexivity|].
  destruct (first_entry_decides Samples.building
              (set_m_atomlist
                 (m_atomlist Samples.building ++ [Samples.atom_O_plain])
                 Samples.building)) as (A & _).
  apply (A _ H). reflexivity.
Defined.

Lemma atom_index_lookups_witness :
  nth_error (m_atomDataSPs MoreSamples.with_tables) (N.to_nat 1)
    = Some (atomDataSP Samples.O) /\
  Info_indexedAtomData false 1 MoreSamples.with_tables = OK Samples.O /\
  (N.of_nat (length (m_atomDataSPs MoreSamples.with_tables)) <= 2)%N /\
  is_LogicError (Info_atomDataSP false 2 MoreSamples.with_tables).
Proof.
  destruct (atom_index_lookups false 1 MoreSamples.with_tables) as (A & _).
  destruct (atom_index_lookups false 2 MoreSamples.with_tables)
    as (_ & _ & _ & B & _).
  split; [reflexivity|]. split; [apply (A _ eq_refl)|].
  assert (L : (N.of_nat (length (m_atomDataSPs MoreSamples.with_tables)) <= 2)%N)
    by (simpl; lia).
  split; [exact L | apply (B L)].
Defined.

Lemma DI_VDOSDebye_needs_positive_witness :
  DI_VDOSDebye_ctor false Samples.dyn_Al 400.0
    = OK (mkDynamicInfo (DI_VDOSDebye 400.0) 0.5 Samples.Al 300.0 None) /\
  debyeTemperature (mkDynamicInfo (DI_VDOSDebye 400.0) 0.5 Samples.Al 300.0 None)
    = Some 400.0%float /\
  PrimFloat.leb 0 0 = true /\
  is_LogicError (DI_VDOSDebye_ctor false Samples.dyn_Al 0).
Proof.
  assert (H : DI_VDOSDebye_ctor false Samples.dyn_Al 400.0
              = OK (mkDynamicInfo (DI_VDOSDebye 400.0) 0.5 Samples.Al 300.0 None))
    by reflexivity.
  split; [exact H|].
  destruct (DI_VDOSDebye_needs_positive false Samples.dyn_Al 400.0) as (A & _).
  destruct (DI_VDOSDebye_needs_positive false Samples.dyn_Al 0)
    as (_ & _ & B & _).
  split; [apply (A _ H)|]. split; [reflexivity|]. apply B. right. reflexivity.
Defined.

Lemma null_arguments_witness :
  setXSectProvider true None Samples.building
    = OK (set_m_xsectprovider None Samples.building) /\
  providesNonBraggXSects (set_m_xsectprovider None Samples.building) = false.
Proof.
  assert (H : setXSectProvider true None Samples.building
              = OK (set_m_xsectprovider None Samples.building)) by reflexivity.
  split; [exact H|].
  destruct (null_arguments Samples.building
              (set_m_xsectprovider None Samples.building)) as (_ & _ & A & _).
  apply (A H).
Defined.

End InfoMoreFacts.
